(** * PrintGuard printer services: PrusaLink client and polling/suspend glue

    A shallow embedding of
      - [printguard/utils/printer_services/prusalink.py] (module [PrusaLinkPyClient])
      - [printguard/utils/printer_utils.py]              (module [PrinterUtils])
    Python values are a small dynamic universe, exceptions are an explicit
    result type, and every outward effect (upstream request, log line, SSE
    push, sleep, task creation) is recorded in a trace. *)

From Stdlib Require Import String List ZArith QArith Bool Arith Lia.
Import ListNotations.
Open Scope string_scope.
Open Scope Z_scope.
Open Scope list_scope.

(** ** Python values, dictionaries and exceptions *)

Module Py.

(** The values that travel through the code: decoded JSON and [None].
    Floats are carried as the rational their literal denotes; the code
    under study only passes them along. *)
#[warnings="-register-all"]
Inductive pyval : Type :=
| PyNone
| PyBool (b : bool)
| PyInt (z : Z)
| PyFloat (q : Q)
| PyStr (s : string)
| PyList (l : list pyval)
| PyDict (d : list (string * pyval)).

(** Insertion-ordered dictionaries with string keys. *)
Definition dict (A : Type) : Type := list (string * A).

Fixpoint dict_get {A : Type} (k : string) (d : dict A) : option A :=
  match d with
  | [] => None
  | (k', v) :: d' => if String.eqb k k' then Some v else dict_get k d'
  end.

(** [d[k] = v]: overwrite in place when the key exists, append otherwise. *)
Fixpoint dict_set {A : Type} (k : string) (v : A) (d : dict A) : dict A :=
  match d with
  | [] => [(k, v)]
  | (k', v') :: d' =>
      if String.eqb k k' then (k', v) :: d' else (k', v') :: dict_set k v d'
  end.

Definition dict_mem {A : Type} (k : string) (d : dict A) : bool :=
  match dict_get k d with Some _ => true | None => false end.

Definition keys {A : Type} (d : dict A) : list string := map fst d.

(** Python truthiness ([if x], [not x]). *)
Definition truthy (v : pyval) : bool :=
  match v with
  | PyNone => false
  | PyBool b => b
  | PyInt z => negb (z =? 0)
  | PyFloat q => negb (Qeq_bool q 0)
  | PyStr s => negb (String.eqb s "")
  | PyList l => match l with [] => false | _ => true end
  | PyDict d => match d with [] => false | _ => true end
  end.

(** The subclasses of [Exception] the code can meet. *)
Inductive exn : Type :=
| HTTPError (status : Z)
| ConnectionError
| JSONDecodeError
| KeyError (key : string)
| TypeError
| AttributeError (attr : string)
| ValueError
| OverflowError
| ValidationError
| OtherException (what : string).

Inductive result (A : Type) : Type :=
| Return (a : A)
| Raise (e : exn).
Arguments Return {A} a.
Arguments Raise {A} e.

(** [obj[k]] *)
Definition getitem (obj : pyval) (k : string) : result pyval :=
  match obj with
  | PyDict d => match dict_get k d with
                | Some v => Return v
                | None => Raise (KeyError k)
                end
  | _ => Raise TypeError
  end.

(** [obj.get(k, default)] *)
Definition get (obj : pyval) (k : string) (default : pyval) : result pyval :=
  match obj with
  | PyDict d => match dict_get k d with
                | Some v => Return v
                | None => Return default
                end
  | _ => Raise (AttributeError "get")
  end.

(** [obj.items()] *)
Definition items (obj : pyval) : result (dict pyval) :=
  match obj with
  | PyDict d => Return d
  | _ => Raise (AttributeError "items")
  end.

End Py.
Import Py.

(** ** Shared data model *)

(** Modelled from the spec: the classes [JobInfoResponse], [TemperatureReading],
    [PrinterTemperatures] and [PrinterState] of [printguard/models.py], a
    module outside the two embedded here.  Fields are those the spec's data
    model lists and the code reads or writes.  [PrinterTemperatures] and
    [PrinterState] are built from values that went through the other two
    classes; building them is taken to succeed. *)
Record Progress : Type := mkProgress {
  completion : pyval;
  printTime : pyval;
  printTimeLeft : pyval
}.

Record JobInfoResponse : Type := mkJobInfoResponse {
  job : pyval;
  progress : Progress;
  state : pyval
}.

Record TemperatureReading : Type := mkTemperatureReading {
  actual : pyval;
  target : pyval
}.

Record PrinterTemperatures : Type := mkPrinterTemperatures {
  nozzle_actual : pyval;
  nozzle_target : pyval;
  bed_actual : pyval;
  bed_target : pyval
}.

Record PrinterState : Type := mkPrinterState {
  jobInfoResponse : option JobInfoResponse;
  temperatureReading : PrinterTemperatures
}.

(** The enumerations [PrinterType] and [AlertAction] of the same module: the
    members the code names, and a constructor for any further member the
    enumeration may declare. *)
Inductive PrinterType : Type :=
| OCTOPRINT
| PRUSALINKPY
| OtherPrinterType (name : string).

Inductive AlertAction : Type :=
| CANCEL_PRINT
| PAUSE_PRINT
| OtherAction (name : string).

(** What [models.py] declares and the two modules use.
    - The keyword-argument constructors of the two validated models: what the
      classes accept, reject or coerce is left open, each constructor is an
      arbitrary function from the keyword dictionary to a result.
    - The value table of [PrinterType] (member values are strings).
    - The key [SavedConfig.PRINTER_STAT_POLLING_RATE_MS]. *)
Class Models : Type := {
  JobInfoResponse_init : dict pyval -> result JobInfoResponse;
  TemperatureReading_init : dict pyval -> result TemperatureReading;
  PrinterType_values : dict PrinterType;
  SavedConfig_PRINTER_STAT_POLLING_RATE_MS : string
}.

(** The [FileInfo] class of [models.py], left open like the other validated
    models, and Python's [*] on the values at hand (float rounding, integer
    product, sequence repetition, [TypeError]), left open as well. *)
Class FileModels : Type := {
  FileInfo : Type;
  FileInfo_init : dict pyval -> result FileInfo
}.

Class Arithmetic : Type := {
  mul : pyval -> pyval -> result pyval
}.

(** ** Effects *)

Inductive request : Type :=
| GetStatus | GetJob | GetPrinter | StopPrint | PausePrint.

Inductive method : Type :=
| m_get_job_info | m_cancel_job | m_pause_job | m_get_printer_state.

Inductive level : Type := DEBUG | WARNING | ERROR.

Inductive event : Type :=
| Http (r : request)                 (* a request the client sent upstream *)
| Invoke (m : method)                (* a method called on the printer client *)
| Log (l : level) (fmt : string)     (* logging.debug / warning / error *)
| SsePush (s : PrinterState)         (* sse_update_printer_state *)
| Sleep (interval : Q)               (* asyncio.sleep *)
| CreateTask (interval : Q)          (* asyncio.create_task(poll_printer_state_func(...)) *)
| AddPollingTask (camera_uuid : string).

Definition trace : Type := list event.

(** Computations: the events of type [E] emitted so far and how the
    computation ended.  A printer client emits [request]s, the glue code of
    [printer_utils] emits [event]s. *)
Definition M (E A : Type) : Type := (list E * result A)%type.

Definition ret {E A : Type} (a : A) : M E A := ([], Return a).

Definition raise {E A : Type} (e : exn) : M E A := ([], Raise e).

Definition lift {E A : Type} (r : result A) : M E A := ([], r).

Definition emit {E : Type} (ev : E) : M E unit := ([ev], Return tt).

Definition bind {E A B : Type} (m : M E A) (k : A -> M E B) : M E B :=
  match m with
  | (t, Return a) => let (t', r) := k a in (t ++ t', r)
  | (t, Raise e) => (t, Raise e)
  end.

(** [try: m  except Exception as e: h e] *)
Definition try_except {E A : Type} (m : M E A) (h : exn -> M E A) : M E A :=
  match m with
  | (t, Raise e) => let (t', r) := h e in (t ++ t', r)
  | (t, Return a) => (t, Return a)
  end.

Declare Scope py_scope.
Delimit Scope py_scope with py.
Notation "x <- m ;; k" := (bind m (fun x => k))
  (at level 61, m at next level, right associativity) : py_scope.
Notation "m ;; k" := (bind m (fun _ => k))
  (at level 61, right associativity) : py_scope.
Open Scope py_scope.

Definition events {E A : Type} (m : M E A) : list E := fst m.
Definition outcome {E A : Type} (m : M E A) : result A := snd m.

(** ** prusalink.py *)

(** A [requests.Response]: the status code and what [resp.json()] gives. *)
Record Response : Type := mkResponse {
  status_code : Z;
  json : result pyval
}.

(** [Response.raise_for_status]: [HTTPError] on 4xx and 5xx. *)
Definition raise_for_status (resp : Response) : M request unit :=
  if (400 <=? status_code resp) && (status_code resp <? 600)
  then raise (HTTPError (status_code resp))
  else ret tt.

(** The [PrusaLinkPy.PrusaLinkPy] handle held in [self.client]: what the
    upstream printer answers to each call at the time it is made (a
    transport failure of the library call is a [Raise]).  The two command
    calls of the library give [None] instead of a response when they find no
    job to act on. *)
Record PrusaLinkPy : Type := mkPrusaLinkPy {
  get_status : result Response;
  get_job : result Response;
  get_printer : result Response;
  stop_print : result (option Response);
  pause_print : result (option Response)
}.

Definition send (r : request) (reply : result Response) : M request Response :=
  emit r ;; lift reply.

Definition send_command (r : request) (reply : result (option Response))
  : M request (option Response) :=
  emit r ;; lift reply.

(** [resp.status_code], where [resp] may be [None]. *)
Definition status_code_of (resp : option Response) : M request Z :=
  match resp with
  | Some r => ret (status_code r)
  | None => raise (AttributeError "status_code")
  end.

(** [resp.raise_for_status()], where [resp] may be [None]. *)
Definition raise_for_status_of (resp : option Response) : M request unit :=
  match resp with
  | Some r => raise_for_status r
  | None => raise (AttributeError "raise_for_status")
  end.

Module PrusaLinkPyClient.
Section Client.
Context {models : Models}.

Definition get_job_info (self : PrusaLinkPy) : M request JobInfoResponse :=
  status_resp <- send GetStatus (get_status self) ;;
  raise_for_status status_resp ;;
  status_data <- lift (json status_resp) ;;
  job_resp <- send GetJob (get_job self) ;;
  raise_for_status job_resp ;;
  job_data <- lift (json job_resp) ;;
  progress_info <- lift (getitem status_data "job") ;;
  job_details <- lift (get job_data "job" (PyDict [])) ;;
  completion <- lift (get progress_info "progress" PyNone) ;;
  printTime <- lift (get progress_info "time_printing" PyNone) ;;
  printTimeLeft <- lift (get progress_info "time_remaining" PyNone) ;;
  printer <- lift (get status_data "printer" (PyDict [])) ;;
  state <- lift (get printer "state" PyNone) ;;
  lift (JobInfoResponse_init
          [("job", job_details);
           ("progress", PyDict [("completion", completion);
                                ("printTime", printTime);
                                ("printTimeLeft", printTimeLeft)]);
           ("state", state)]).

Definition cancel_job (self : PrusaLinkPy) : M request unit :=
  resp <- send_command StopPrint (stop_print self) ;;
  code <- status_code_of resp ;;
  if code =? 204 then ret tt
  else raise_for_status_of resp.

Definition pause_job (self : PrusaLinkPy) : M request unit :=
  resp <- send_command PausePrint (pause_print self) ;;
  code <- status_code_of resp ;;
  if code =? 204 then ret tt
  else raise_for_status_of resp.

(** [isinstance(value, dict) and 'actual' in value] *)
Definition has_actual (value : pyval) : bool :=
  match value with
  | PyDict d => dict_mem "actual" d
  | _ => false
  end.

(** The [for key, value in temp_data.items()] loop. *)
Fixpoint collect_readings (its : dict pyval) (readings : dict TemperatureReading)
  : M request (dict TemperatureReading) :=
  match its with
  | [] => ret readings
  | (key, value) :: rest =>
      match value with
      | PyDict d =>
          if dict_mem "actual" d
          then (r <- lift (TemperatureReading_init d) ;;
                collect_readings rest (dict_set key r readings))
          else collect_readings rest readings
      | _ => collect_readings rest readings
      end
  end.

Definition get_printer_temperatures (self : PrusaLinkPy)
  : M request (dict TemperatureReading) :=
  resp <- send GetPrinter (get_printer self) ;;
  if status_code resp =? 409 then ret []
  else
    raise_for_status resp ;;
    data <- lift (json resp) ;;
    temp_data <- lift (get data "temperature" (PyDict [])) ;;
    if negb (truthy temp_data) then ret []
    else
      its <- lift (items temp_data) ;;
      collect_readings its [].

Definition nozzle_and_bed_temps (self : PrusaLinkPy) : M request (dict pyval) :=
  temps <- get_printer_temperatures self ;;
  match temps with
  | [] => ret [("nozzle_actual", PyFloat 0); ("nozzle_target", PyFloat 0);
               ("bed_actual", PyFloat 0); ("bed_target", PyFloat 0)]
  | _ =>
      let tool0 := dict_get "tool0" temps in
      let bed := dict_get "bed" temps in
      ret [("nozzle_actual", match tool0 with Some r => actual r | None => PyFloat 0 end);
           ("nozzle_target", match tool0 with Some r => target r | None => PyFloat 0 end);
           ("bed_actual", match bed with Some r => actual r | None => PyFloat 0 end);
           ("bed_target", match bed with Some r => target r | None => PyFloat 0 end)]
  end.

Definition get_printer_state (self : PrusaLinkPy) : M request PrinterState :=
  temperature_readings <- get_printer_temperatures self ;;
  let tool0_temp := dict_get "tool0" temperature_readings in
  let bed_temp := dict_get "bed" temperature_readings in
  let printer_temps :=
    mkPrinterTemperatures
      (match tool0_temp with Some r => actual r | None => PyNone end)
      (match tool0_temp with Some r => target r | None => PyNone end)
      (match bed_temp with Some r => actual r | None => PyNone end)
      (match bed_temp with Some r => target r | None => PyNone end) in
  job_info <- try_except
                (ji <- get_job_info self ;; ret (Some ji))
                (fun _ => ret None) ;;
  ret (mkPrinterState job_info printer_temps).

Context {files : FileModels} {arith : Arithmetic}.

Definition percent_complete (self : PrusaLinkPy) : M request pyval :=
  job_info <- get_job_info self ;;
  match completion (progress job_info) with
  | PyNone => ret (PyFloat 0)
  | c => lift (mul c (PyInt 100))
  end.

(** [FileInfo] is called on [file_data] unpacked into keyword arguments,
    which must be a mapping. *)
Definition current_file (self : PrusaLinkPy) : M request FileInfo :=
  job_info <- get_job_info self ;;
  file_data <- lift (get (job job_info) "file" (PyDict [])) ;;
  match file_data with
  | PyDict kw => lift (FileInfo_init kw)
  | _ => raise TypeError
  end.

End Client.
End PrusaLinkPyClient.

(** ** printer_utils.py *)

(** What a printer client offers to [printer_utils]; [OctoPrintClient] and
    [PrusaLinkPyClient] both implement it. *)
Record Client : Type := mkClient {
  get_job_info : M request JobInfoResponse;
  cancel_job : M request unit;
  pause_job : M request unit;
  get_printer_state : M request PrinterState
}.

(** [client.m()]: the call is recorded, then the method body runs and its
    requests go upstream. *)
Definition call {A : Type} (m : method) (body : M request A) : M event A :=
  (Invoke m :: map Http (events body), outcome body).

Inductive ClientClass : Type := OctoPrintClient | PrusaLinkPyClient.

(** The collaborators of [printer_utils] in other modules: the
    camera-state store, the config store with its default polling rate, the
    [OctoPrintClient] class, the [PrusaLinkPy] library constructor, and the
    task registry: how building the [PollingTask] and handing it to
    [add_polling_task] ends for a camera.  A camera state is the dictionary of
    its attributes. *)
Record World : Type := mkWorld {
  get_camera_state_sync : string -> result (option (dict pyval));
  get_config : result pyval;
  PRINTER_STAT_POLLING_RATE_MS : pyval;
  OctoPrintClient_init : pyval -> pyval -> result Client;
  PrusaLinkPy_init : pyval -> pyval -> result PrusaLinkPy;
  add_polling_task : string -> result unit
}.

(** What the polling task meets while it runs, per iteration [n] of its loop:
    whether the stop event is set when tested, how the client answers, and how
    the SSE push of a state ends. *)
Record Schedule : Type := mkSchedule {
  is_set : nat -> bool;
  client_at : nat -> Client;
  sse_update_printer_state : nat -> PrinterState -> result unit
}.

(** Modelled from the spec: the camera-state store of [camera_utils.py], a
    module outside the two embedded here.  The store keeps, per camera UUID,
    the attributes of the camera state; [get_camera_state_sync] gives the state
    or [None], and [update_camera_state] writes the attributes of [partial]
    into the state of a known camera and gives the updated state, or [None]
    for an unknown camera. *)
Module CameraUtils.

Definition CameraStore : Type := dict (dict pyval).

Definition get_camera_state_sync (st : CameraStore) (camera_uuid : string)
  : option (dict pyval) :=
  dict_get camera_uuid st.

Definition merge (partial attrs : dict pyval) : dict pyval :=
  fold_left (fun acc kv => dict_set (fst kv) (snd kv) acc) partial attrs.

Definition update_camera_state (st : CameraStore) (camera_uuid : string)
    (partial : dict pyval) : CameraStore * option (dict pyval) :=
  match dict_get camera_uuid st with
  | Some attrs =>
      (dict_set camera_uuid (merge partial attrs) st, Some (merge partial attrs))
  | None => (st, None)
  end.

End CameraUtils.

Module PrinterUtils.
Section Utils.
Context {models : Models}.

Definition PrinterType_eqb (a b : PrinterType) : bool :=
  match a, b with
  | OCTOPRINT, OCTOPRINT => true
  | PRUSALINKPY, PRUSALINKPY => true
  | OtherPrinterType x, OtherPrinterType y => String.eqb x y
  | _, _ => false
  end.

(** [PrinterType(value)]: the member with that value, [ValueError] otherwise. *)
Definition PrinterType_call (value : pyval) : result PrinterType :=
  match value with
  | PyStr s => match dict_get s PrinterType_values with
               | Some t => Return t
               | None => Raise ValueError
               end
  | _ => Raise ValueError
  end.

Definition CLIENT_FACTORY : list (PrinterType * ClientClass) :=
  [(OCTOPRINT, OctoPrintClient);
   (PRUSALINKPY, PrusaLinkPyClient)].

(** [CLIENT_FACTORY.get(printer_type)] *)
Fixpoint factory_get (printer_type : PrinterType)
    (factory : list (PrinterType * ClientClass)) : option ClientClass :=
  match factory with
  | [] => None
  | (t, c) :: rest =>
      if PrinterType_eqb printer_type t then Some c
      else factory_get printer_type rest
  end.

(** [PrusaLinkPyClient(base_url, api_key)] seen through the client interface. *)
Definition PrusaLinkPyClient_init (w : World) (base_url api_key : pyval)
  : result Client :=
  match PrusaLinkPy_init w base_url api_key with
  | Return self =>
      Return (mkClient (PrusaLinkPyClient.get_job_info self)
                       (PrusaLinkPyClient.cancel_job self)
                       (PrusaLinkPyClient.pause_job self)
                       (PrusaLinkPyClient.get_printer_state self))
  | Raise e => Raise e
  end.

(** [client_class(base_url, api_key)] *)
Definition construct (w : World) (client_class : ClientClass)
    (base_url api_key : pyval) : result Client :=
  match client_class with
  | OctoPrintClient => OctoPrintClient_init w base_url api_key
  | PrusaLinkPyClient => PrusaLinkPyClient_init w base_url api_key
  end.

Definition get_printer_config (w : World) (camera_uuid : string)
  : M event pyval :=
  camera_state <- lift (get_camera_state_sync w camera_uuid) ;;
  match camera_state with
  | Some attrs =>
      match dict_get "printer_config" attrs with
      | Some printer_config =>
          if truthy printer_config then ret printer_config else ret PyNone
      | None => ret PyNone
      end
  | None => ret PyNone
  end.

(** [printer_type_str = cfg.get('printer_type')] followed by
    [PrinterType(printer_type_str) if printer_type_str else PrinterType.OCTOPRINT] *)
Definition resolve_printer_type (printer_config : pyval)
  : M event PrinterType :=
  printer_type_str <- lift (get printer_config "printer_type" PyNone) ;;
  if truthy printer_type_str
  then lift (PrinterType_call printer_type_str)
  else ret OCTOPRINT.

(** The integers [z] with [z / 1000] too large for a float are those from
    this bound on, in absolute value: the quotient is rounded to the nearest
    float, and the first value that rounds beyond the largest float is
    2^1024 - 2^970. *)
Definition true_div_1000_limit : Z := 1000 * (2 ^ 1024 - 2 ^ 970).

(** [float(x / 1000)]: true division of an integer raises [OverflowError]
    when the quotient is too large for a float; the interval is carried as the
    exact quotient. *)
Definition rate_of (x : pyval) : result Q :=
  match x with
  | PyInt z =>
      if Z.abs z <? true_div_1000_limit
      then Return (inject_Z z / 1000)%Q
      else Raise OverflowError
  | PyFloat q => Return (q / 1000)%Q
  | PyBool b => Return (inject_Z (if b then 1 else 0) / 1000)%Q
  | _ => Raise TypeError
  end.

(** One pass through the body of the [while] loop. *)
Definition poll_once (s : Schedule) (interval : Q) (n : nat) : M event unit :=
  try_except
    (current_printer_state <-
       call m_get_printer_state (get_printer_state (client_at s n)) ;;
     emit (SsePush current_printer_state) ;;
     lift (sse_update_printer_state s n current_printer_state))
    (fun _ => emit (Log WARNING "Error polling printer state: %s")) ;;
  emit (Sleep interval).

(** The loop from its [n]-th test of the stop event on; [None] when the fuel
    runs out before the loop has ended. *)
Fixpoint poll_printer_state_func (fuel : nat) (s : Schedule) (interval : Q)
    (n : nat) : trace * option (result unit) :=
  match fuel with
  | O => ([], None)
  | S fuel' =>
      if is_set s n then ([], Some (Return tt))
      else
        match poll_once s interval n with
        | (t, Return _) =>
            let (t', r) := poll_printer_state_func fuel' s interval (S n) in
            (t ++ t', r)
        | (t, Raise e) => (t, Some (Raise e))
        end
  end.

Definition start_printer_state_polling (w : World) (camera_uuid : string)
  : M event unit :=
  camera_printer_config <- get_printer_config w camera_uuid ;;
  if negb (truthy camera_printer_config)
  then emit (Log WARNING "No printer configuration found for camera UUID %s")
  else
    config <- lift (get_config w) ;;
    rate_ms <- lift (get config SavedConfig_PRINTER_STAT_POLLING_RATE_MS
                         (PRINTER_STAT_POLLING_RATE_MS w)) ;;
    printer_polling_rate <- lift (rate_of rate_ms) ;;
    printer_type <- resolve_printer_type camera_printer_config ;;
    match factory_get printer_type CLIENT_FACTORY with
    | None => emit (Log ERROR "Unsupported printer type: {printer_type}")
    | Some client_class =>
        base_url <- lift (get camera_printer_config "base_url" PyNone) ;;
        api_key <- lift (get camera_printer_config "api_key" PyNone) ;;
        client <- lift (construct w client_class base_url api_key) ;;
        emit (CreateTask printer_polling_rate) ;;
        emit (AddPollingTask camera_uuid) ;;
        lift (add_polling_task w camera_uuid) ;;
        emit (Log DEBUG "Started printer state polling for camera index %d using {client_class.__name__}")
    end.

(** [job_info.state not in ["Printing", "PRINTING"]], negated. *)
Definition is_printing (st : pyval) : bool :=
  match st with
  | PyStr s => String.eqb s "Printing" || String.eqb s "PRINTING"
  | _ => false
  end.

(** The [try] statement that ends [suspend_print_job] (every path through it
    returns). *)
Definition suspend_attempt (client : Client) (action : AlertAction)
  : M event bool :=
  try_except
    (job_info <- call m_get_job_info (get_job_info client) ;;
     if negb (is_printing (state job_info))
     then emit (Log DEBUG "No active print job to suspend for camera %s.") ;;
          ret true
     else
       match action with
       | CANCEL_PRINT =>
           call m_cancel_job (cancel_job client) ;;
           emit (Log DEBUG "Print cancelled for printer on camera %s.") ;;
           ret true
       | PAUSE_PRINT =>
           call m_pause_job (pause_job client) ;;
           emit (Log DEBUG "Print paused for printer on camera %s.") ;;
           ret true
       | _ => ret true
       end)
    (fun _ =>
       emit (Log ERROR "Error suspending print job for printer on camera %s: %s") ;;
       ret false).

Definition suspend_print_job (w : World) (camera_uuid : string)
    (action : AlertAction) : M event bool :=
  printer_config <- get_printer_config w camera_uuid ;;
  if negb (truthy printer_config)
  then emit (Log ERROR "No printer configuration found for camera UUID %s") ;;
       ret false
  else
    printer_type <- resolve_printer_type printer_config ;;
    match factory_get printer_type CLIENT_FACTORY with
    | None => emit (Log ERROR "Unsupported printer type: {printer_type}") ;;
              ret false
    | Some client_class =>
        base_url <- lift (get printer_config "base_url" PyNone) ;;
        api_key <- lift (get printer_config "api_key" PyNone) ;;
        client <- lift (construct w client_class base_url api_key) ;;
        suspend_attempt client action
    end.

Definition get_printer_id (w : World) (camera_uuid : string) : M event pyval :=
  camera_state <- lift (get_camera_state_sync w camera_uuid) ;;
  match camera_state with
  | Some attrs =>
      match dict_get "printer_id" attrs with
      | Some printer_id =>
          if truthy printer_id then ret printer_id else ret PyNone
      | None => ret PyNone
      end
  | None => ret PyNone
  end.

Definition set_printer (st : CameraUtils.CameraStore) (camera_uuid : string)
    (printer_id printer_config : pyval)
  : CameraUtils.CameraStore * option (dict pyval) :=
  CameraUtils.update_camera_state st camera_uuid
    [("printer_id", printer_id); ("printer_config", printer_config)].

Definition remove_printer (st : CameraUtils.CameraStore) (camera_uuid : string)
  : CameraUtils.CameraStore * option (dict pyval) :=
  CameraUtils.update_camera_state st camera_uuid
    [("printer_id", PyNone); ("printer_config", PyNone)].

End Utils.
End PrinterUtils.

(** ** Vocabulary of the statements *)

(** The mapping [nozzle_and_bed_temps] returns when it has nothing to report. *)
Definition all_zero : dict pyval :=
  [("nozzle_actual", PyFloat 0); ("nozzle_target", PyFloat 0);
   ("bed_actual", PyFloat 0); ("bed_target", PyFloat 0)].

(** Statuses on which [raise_for_status] raises. *)
Definition error_status (sc : Z) : bool := (400 <=? sc) && (sc <? 600).

Definition returns {E A : Type} (m : M E A) : bool :=
  match outcome m with Return _ => true | Raise _ => false end.

(** An entry of the temperature object and the reading built from it. *)
Definition reading_of `{Models} (entry : string * pyval)
    (kr : string * TemperatureReading) : Prop :=
  fst entry = fst kr /\
  exists d, snd entry = PyDict d /\ TemperatureReading_init d = Return (snd kr).

Definition keeps_entry (entry : string * pyval) : bool :=
  PrusaLinkPyClient.has_actual (snd entry).

(** Cancel and pause commands issued to the client, in order. *)
Fixpoint commands (t : trace) : list method :=
  match t with
  | [] => []
  | Invoke m_cancel_job :: t' => m_cancel_job :: commands t'
  | Invoke m_pause_job :: t' => m_pause_job :: commands t'
  | _ :: t' => commands t'
  end.

Definition is_poll (ev : event) : bool :=
  match ev with Invoke m_get_printer_state => true | _ => false end.

Definition is_push (ev : event) : bool :=
  match ev with SsePush _ => true | _ => false end.

Definition is_sleep (ev : event) : bool :=
  match ev with Sleep _ => true | _ => false end.

Definition count (p : event -> bool) (t : trace) : nat :=
  length (filter p t).

(** Among the [k] iterations from the [n]-th on, those whose poll returned a
    state. *)
Fixpoint polls_returned (s : Schedule) (n k : nat) : nat :=
  match k with
  | O => O
  | S k' =>
      ((if returns (get_printer_state (client_at s n)) then 1 else 0) +
       polls_returned s (S n) k')%nat
  end.

(** The set-up of [suspend_print_job] found a printer configuration for the
    camera and a client class for its printer type, and the call of that class
    ended as [built]. *)
Definition construction `{Models} (w : World) (camera_uuid : string)
    (built : result Client) : Prop :=
  exists printer_config printer_type client_class,
    PrinterUtils.get_printer_config w camera_uuid = ([], Return printer_config) /\
    truthy printer_config = true /\
    PrinterUtils.resolve_printer_type printer_config = ([], Return printer_type) /\
    PrinterUtils.factory_get printer_type PrinterUtils.CLIENT_FACTORY
      = Some client_class /\
    exists base_url api_key,
      get printer_config "base_url" PyNone = Return base_url /\
      get printer_config "api_key" PyNone = Return api_key /\
      PrinterUtils.construct w client_class base_url api_key = built.

(** The world [w] with its camera states read from the store [st]. *)
Definition with_store (w : World) (st : CameraUtils.CameraStore) : World :=
  mkWorld (fun camera_uuid => Return (CameraUtils.get_camera_state_sync st camera_uuid))
          (get_config w) (PRINTER_STAT_POLLING_RATE_MS w)
          (OctoPrintClient_init w) (PrusaLinkPy_init w) (add_polling_task w).

(** [d.get(k)] on a dictionary. *)
Definition value_or_none (v : option pyval) : pyval :=
  match v with Some x => x | None => PyNone end.

(** The PrusaLink client on the handle [self], as [printer_utils] sees it. *)
Definition client_of `{Models} (self : PrusaLinkPy) : Client :=
  mkClient (PrusaLinkPyClient.get_job_info self)
           (PrusaLinkPyClient.cancel_job self)
           (PrusaLinkPyClient.pause_job self)
           (PrusaLinkPyClient.get_printer_state self).

Definition is_task (ev : event) : bool :=
  match ev with CreateTask _ => true | _ => false end.

Definition is_warning (ev : event) : bool :=
  match ev with Log WARNING _ => true | _ => false end.

(** The requests in a trace, in order. *)
Fixpoint requests_of (t : trace) : list request :=
  match t with
  | [] => []
  | Http r :: t' => r :: requests_of t'
  | _ :: t' => requests_of t'
  end.

(** The traces of the [k] passes through the polling loop from the [n]-th
    on, one after the other. *)
Fixpoint cycles (s : Schedule) (interval : Q) (n k : nat) : trace :=
  match k with
  | O => []
  | S k' => events (PrinterUtils.poll_once s interval n) ++ cycles s interval (S n) k'
  end.


(** ** Sample installations *)

Module Sample.

(** Models that keep the keyword arguments they are given. *)
Definition field (k : string) (kw : dict pyval) : pyval :=
  match dict_get k kw with Some v => v | None => PyNone end.

Definition plain_models : Models := {|
  JobInfoResponse_init kw :=
    Return (mkJobInfoResponse
              (field "job" kw)
              (mkProgress (field "completion" (match field "progress" kw with
                                               | PyDict p => p | _ => [] end))
                          (field "printTime" (match field "progress" kw with
                                              | PyDict p => p | _ => [] end))
                          (field "printTimeLeft" (match field "progress" kw with
                                                  | PyDict p => p | _ => [] end)))
              (field "state" kw));
  TemperatureReading_init kw :=
    Return (mkTemperatureReading (field "actual" kw) (field "target" kw));
  PrinterType_values := [("octoprint", OCTOPRINT); ("prusalinkpy", PRUSALINKPY)];
  SavedConfig_PRINTER_STAT_POLLING_RATE_MS := "printer_stat_polling_rate_ms"
|}.

Definition ok (body : pyval) : result Response :=
  Return (mkResponse 200 (Return body)).

Definition status_body : pyval :=
  PyDict [("job", PyDict [("progress", PyFloat 0.42);
                          ("time_printing", PyInt 100);
                          ("time_remaining", PyInt 50)]);
          ("printer", PyDict [("state", PyStr "PRINTING")])].

Definition job_body : pyval :=
  PyDict [("job", PyDict [("file", PyDict [("name", PyStr "x.gcode")])])].

Definition printer_body : pyval :=
  PyDict [("temperature",
           PyDict [("tool0", PyDict [("actual", PyFloat 215.0);
                                     ("target", PyFloat 220.0)]);
                   ("bed", PyDict [("actual", PyFloat 60.0);
                                   ("target", PyFloat 60.0)]);
                   ("units", PyStr "C")])].

Definition no_content : result (option Response) :=
  Return (Some (mkResponse 204 (Raise JSONDecodeError))).

(** A printer in the middle of a print. *)
Definition printing : PrusaLinkPy :=
  mkPrusaLinkPy (ok status_body) (ok job_body) (ok printer_body)
                no_content no_content.

(** The same printer answering 409 to the temperature query. *)
Definition busy : PrusaLinkPy :=
  mkPrusaLinkPy (ok status_body) (ok job_body)
                (Return (mkResponse 409 (Raise JSONDecodeError)))
                no_content no_content.

(** The same printer answering 500 to the temperature query. *)
Definition failing : PrusaLinkPy :=
  mkPrusaLinkPy (ok status_body) (ok job_body)
                (Return (mkResponse 500 (Raise JSONDecodeError)))
                no_content no_content.

(** A printer that reports a chamber sensor only. *)
Definition chamber_only : PrusaLinkPy :=
  mkPrusaLinkPy (ok status_body) (ok job_body)
                (ok (PyDict [("temperature",
                              PyDict [("chamber", PyDict [("actual", PyFloat 28.5);
                                                          ("target", PyFloat 0)])])]))
                no_content no_content.

(** A printer whose temperature entries are bare numbers. *)
Definition bare_numbers : PrusaLinkPy :=
  mkPrusaLinkPy (ok status_body) (ok job_body)
                (ok (PyDict [("temperature",
                              PyDict [("tool0", PyFloat 215.0);
                                      ("bed", PyFloat 60.0)])]))
                no_content no_content.

(** An idle printer: the status response carries no job. *)
Definition idle : PrusaLinkPy :=
  mkPrusaLinkPy (ok (PyDict [("printer", PyDict [("state", PyStr "IDLE")])]))
                (Return (mkResponse 204 (Raise JSONDecodeError)))
                (ok printer_body) no_content no_content.

(** A canned OctoPrint client with a print under way. *)
Definition octoprint : Client :=
  mkClient
    ([GetJob],
     Return (mkJobInfoResponse (PyDict [("file", PyDict [("name", PyStr "benchy.gcode")])])
                               (mkProgress (PyFloat 12.5) (PyInt 300) (PyInt 2100))
                               (PyStr "Printing")))
    ([StopPrint], Return tt)
    ([PausePrint], Raise (HTTPError 409))
    ([GetPrinter; GetJob], Raise ConnectionError).

(** A canned OctoPrint client whose printer is switched on and waiting. *)
Definition octoprint_operational : Client :=
  mkClient
    ([GetJob],
     Return (mkJobInfoResponse (PyDict [("file", PyDict [("name", PyNone)])])
                               (mkProgress PyNone PyNone PyNone)
                               (PyStr "Operational")))
    ([StopPrint], Raise (HTTPError 409))
    ([PausePrint], Raise (HTTPError 409))
    ([GetPrinter; GetJob], Raise ConnectionError).

Definition printer_config (printer_type : list (string * pyval)) : pyval :=
  PyDict (printer_type ++
          [("base_url", PyStr "192.168.1.20");
           ("api_key", PyStr "secret");
           ("name", PyStr "workshop")]).

Definition camera (printer_config : pyval) : result (option (dict pyval)) :=
  Return (Some [("printer_id", PyStr "printer-1");
                ("printer_config", printer_config)]).

(** Cameras: one per way a printer can be configured.  The OctoPrint class
    refuses to be built without a base URL. *)
Definition world (printer : PrusaLinkPy) (octo : Client) : World := {|
  get_camera_state_sync uuid :=
    if String.eqb uuid "cam-prusa"
    then camera (printer_config [("printer_type", PyStr "prusalinkpy")])
    else if String.eqb uuid "cam-octo"
    then camera (printer_config [("printer_type", PyStr "octoprint")])
    else if String.eqb uuid "cam-legacy"
    then camera (printer_config [])
    else if String.eqb uuid "cam-klipper"
    then camera (printer_config [("printer_type", PyStr "klipper")])
    else if String.eqb uuid "cam-no-url"
    then camera (PyDict [("printer_type", PyStr "octoprint")])
    else if String.eqb uuid "cam-bare"
    then camera PyNone
    else Return None;
  get_config := Return (PyDict []);
  PRINTER_STAT_POLLING_RATE_MS := PyInt 2000;
  OctoPrintClient_init base_url _ :=
    match base_url with
    | PyStr _ => Return octo
    | _ => Raise (AttributeError "rstrip")
    end;
  PrusaLinkPy_init _ _ := Return printer;
  add_polling_task _ := Return tt
|}.

(** Models whose [PrinterType] has a third member without a client. *)
Definition wider_models : Models := {|
  JobInfoResponse_init := @JobInfoResponse_init plain_models;
  TemperatureReading_init := @TemperatureReading_init plain_models;
  PrinterType_values := [("octoprint", OCTOPRINT); ("prusalinkpy", PRUSALINKPY);
                         ("klipper", OtherPrinterType "KLIPPER")];
  SavedConfig_PRINTER_STAT_POLLING_RATE_MS := "printer_stat_polling_rate_ms"
|}.

(** A polling task stopped after three sleeps; its second poll fails. *)
Definition three_ticks : Schedule := {|
  is_set n := (3 <=? n)%nat;
  client_at n :=
    if (n =? 1)%nat
    then mkClient ([GetJob], Raise ConnectionError) ([StopPrint], Return tt)
                  ([PausePrint], Return tt) ([GetPrinter], Raise ConnectionError)
    else mkClient
           (PrusaLinkPyClient.get_job_info (models := plain_models) printing)
           (PrusaLinkPyClient.cancel_job printing)
           (PrusaLinkPyClient.pause_job printing)
           (PrusaLinkPyClient.get_printer_state (models := plain_models) printing);
  sse_update_printer_state _ _ := Return tt
|}.

(** File models that keep the name they are given; Python's [*] on numbers,
    exact on the rationals that stand for floats. *)
Definition plain_files : FileModels := {|
  FileInfo := pyval;
  FileInfo_init kw := Return (field "name" kw)
|}.

Definition exact_arith : Arithmetic := {|
  mul a b :=
    match a, b with
    | PyFloat q, PyInt z => Return (PyFloat (q * inject_Z z))
    | PyInt x, PyInt z => Return (PyInt (x * z))
    | _, _ => Raise TypeError
    end
|}.

(** A printer whose status carries a job without progress and whose job
    response names no file. *)
Definition starting : PrusaLinkPy :=
  mkPrusaLinkPy (ok (PyDict [("job", PyDict [("id", PyInt 7)]);
                             ("printer", PyDict [("state", PyStr "PRINTING")])]))
                (ok (PyDict [("job", PyDict [("id", PyInt 7)])]))
                (ok printer_body) no_content no_content.

(** A printer that refuses to stop and agrees to pause. *)
Definition locked : PrusaLinkPy :=
  mkPrusaLinkPy (ok status_body)
                (ok (PyDict [("id", PyInt 7);
                             ("job", PyDict [("file", PyDict [("name", PyStr "x.gcode")])])]))
                (ok printer_body)
                (Return (Some (mkResponse 403 (Raise JSONDecodeError))))
                (Return (Some (mkResponse 200 (Return (PyDict []))))).

(** A printing printer for which the library finds no job to act on. *)
Definition no_handle : PrusaLinkPy :=
  mkPrusaLinkPy (ok status_body) (ok job_body) (ok printer_body)
                (Return None) (Return None).

(** A printer whose nozzle reading is garbled, every entry with its three
    fields. *)
Definition garbled_nozzle : PrusaLinkPy :=
  mkPrusaLinkPy (ok status_body) (ok job_body)
                (ok (PyDict [("temperature",
                              PyDict [("bed", PyDict [("actual", PyFloat 60.0);
                                                      ("target", PyFloat 60.0);
                                                      ("offset", PyInt 0)]);
                                      ("tool0", PyDict [("actual", PyStr "hot");
                                                        ("target", PyFloat 220.0);
                                                        ("offset", PyInt 0)])])]))
                no_content no_content.

(** The sample world with a task registry that refuses the task. *)
Definition registry_down : World :=
  mkWorld (get_camera_state_sync (world printing octoprint))
          (get_config (world printing octoprint))
          (PyInt 2000)
          (OctoPrintClient_init (world printing octoprint))
          (PrusaLinkPy_init (world printing octoprint))
          (fun _ => Raise (OtherException "registry")).

(** A printer unreachable for the status query. *)
Definition unreachable : PrusaLinkPy :=
  mkPrusaLinkPy (Raise ConnectionError) (ok job_body) (ok printer_body)
                no_content no_content.

(** A store with one camera that has no printer yet. *)
Definition store : CameraUtils.CameraStore :=
  [("cam-1", [("nickname", PyStr "bench"); ("printer_id", PyNone);
              ("printer_config", PyNone)]);
   ("cam-2", [("nickname", PyStr "shelf")])].

(** A polling task nobody stops, polling a printer that never answers. *)
Definition forever : Schedule := {|
  is_set _ := false;
  client_at _ :=
    mkClient ([GetJob], Raise ConnectionError) ([StopPrint], Return tt)
             ([PausePrint], Return tt) ([GetPrinter], Raise ConnectionError);
  sse_update_printer_state _ _ := Return tt
|}.

(** A polling task whose pushes fail. *)
Definition deaf_sink : Schedule := {|
  is_set n := (2 <=? n)%nat;
  client_at := client_at three_ticks;
  sse_update_printer_state _ _ := Raise (OtherException "sse")
|}.

(** An idle printer whose job endpoint answers with an empty object. *)
Definition jobless : PrusaLinkPy :=
  mkPrusaLinkPy (ok (PyDict [("printer", PyDict [("state", PyStr "IDLE")])]))
                (ok (PyDict [])) (ok printer_body) no_content no_content.

(** A printer whose printer query carries no temperatures. *)
Definition no_temps : PrusaLinkPy :=
  mkPrusaLinkPy (ok status_body) (ok job_body)
                (ok (PyDict [("state", PyDict [("text", PyStr "Operational")])]))
                no_content no_content.

(** A printer whose nozzle reading is garbled. *)
Definition garbled : PrusaLinkPy :=
  mkPrusaLinkPy (ok status_body) (ok job_body)
                (ok (PyDict [("temperature",
                              PyDict [("bed", PyDict [("actual", PyFloat 60.0)]);
                                      ("tool0", PyDict [("actual", PyStr "hot")])])]))
                no_content no_content.

(** Models whose temperature reading wants a number as 'actual'. *)
Definition strict_models : Models := {|
  JobInfoResponse_init := @JobInfoResponse_init plain_models;
  TemperatureReading_init kw :=
    match field "actual" kw with
    | PyFloat _ | PyInt _ =>
        Return (mkTemperatureReading (field "actual" kw) (field "target" kw))
    | _ => Raise ValidationError
    end;
  PrinterType_values := @PrinterType_values plain_models;
  SavedConfig_PRINTER_STAT_POLLING_RATE_MS := "printer_stat_polling_rate_ms"
|}.

(** The sample world with a polling rate stored as text. *)
Definition misconfigured : World :=
  mkWorld (get_camera_state_sync (world printing octoprint))
          (Return (PyDict [("printer_stat_polling_rate_ms", PyStr "fast")]))
          (PyInt 2000)
          (OctoPrintClient_init (world printing octoprint))
          (PrusaLinkPy_init (world printing octoprint))
          (add_polling_task (world printing octoprint)).

End Sample.

(** ** Dictionaries and the computation monad *)

Section DictFacts.
Context {A : Type}.

Lemma dict_get_app_fresh (k : string) (d1 d2 : dict A) :
  dict_get k d1 = None -> dict_get k (d1 ++ d2) = dict_get k d2.
Proof.
  induction d1 as [|[k' v'] d1 IH]; simpl; [reflexivity|].
  destruct (String.eqb k k'); [discriminate | exact IH].
Qed.

Lemma dict_set_fresh (k : string) (v : A) (d : dict A) :
  dict_get k d = None -> dict_set k v d = d ++ [(k, v)].
Proof.
  induction d as [|[k' v'] d IH]; simpl; [reflexivity|].
  destruct (String.eqb k k'); [discriminate|].
  intros Hk. now rewrite IH.
Qed.

End DictFacts.

Section MonadFacts.
Context {E A B : Type}.

Lemma bind_return (t : list E) (a : A) (k : A -> M E B) :
  bind (t, Return a) k = (t ++ events (k a), outcome (k a)).
Proof. unfold bind, events, outcome. now destruct (k a). Qed.

Lemma bind_lift_return (a : A) (k : A -> M E B) :
  bind (lift (Return a)) k = k a.
Proof. unfold lift, bind. now destruct (k a). Qed.

Lemma bind_ret (a : A) (k : A -> M E B) : bind (ret a) k = k a.
Proof. apply bind_lift_return. Qed.

Lemma bind_pure (a : A) (k : A -> M E B) : bind ([], Return a) k = k a.
Proof. apply bind_lift_return. Qed.

End MonadFacts.

(** ** The PrusaLink client *)

Section PrusaLinkFacts.
Context {models : Models}.
Import PrusaLinkPyClient.

Lemma send_reply (r : request) (resp : Response) :
  send r (Return resp) = ([r], Return resp).
Proof. reflexivity. Qed.

Lemma raise_for_status_error (resp : Response) :
  error_status (status_code resp) = true ->
  raise_for_status resp = ([], Raise (HTTPError (status_code resp))).
Proof. unfold raise_for_status, error_status. now intros ->. Qed.

Lemma raise_for_status_pass (resp : Response) :
  error_status (status_code resp) = false ->
  raise_for_status resp = ret tt.
Proof. unfold raise_for_status, error_status. now intros ->. Qed.

(** C9: when the printer answers the temperature query with a non-success
    status (4xx or 5xx, the statuses [raise_for_status] rejects),
    [get_printer_temperatures] returns the empty mapping if the status is 409
    and raises the transport error [HTTPError] for every other one. *)
Theorem get_printer_temperatures_non_success (self : PrusaLinkPy) (resp : Response) :
  get_printer self = Return resp ->
  error_status (status_code resp) = true ->
  get_printer_temperatures self =
    ([GetPrinter],
     if status_code resp =? 409 then Return []
     else Raise (HTTPError (status_code resp))).
Proof.
  intros Hreply Herr. unfold get_printer_temperatures.
  rewrite Hreply, send_reply, bind_return.
  destruct (status_code resp =? 409) eqn:Hbusy; [reflexivity|].
  rewrite (raise_for_status_error _ Herr). reflexivity.
Qed.

(** The loop over the temperature entries, started on readings whose keys
    are apart from the entries still to come. *)
Lemma collect_readings_fresh (its : dict pyval) :
  forall readings : dict TemperatureReading,
  NoDup (keys its) ->
  (forall k, In k (keys its) -> dict_get k readings = None) ->
  (forall k d, In (k, PyDict d) its -> dict_mem "actual" d = true ->
               exists r, TemperatureReading_init d = Return r) ->
  exists added,
    collect_readings its readings = ([], Return (readings ++ added)) /\
    Forall2 reading_of (filter keeps_entry its) added.
Proof.
  induction its as [|[key value] rest IH]; intros readings Hnd Hfresh Hinit.
  - exists []. simpl. rewrite app_nil_r. split; [reflexivity | constructor].
  - simpl in Hnd. inversion Hnd as [|? ? Hkey Hnd']; subst.
    assert (Hrest : forall acc,
               (forall k, In k (keys rest) -> dict_get k acc = None) ->
               exists added,
                 collect_readings rest acc = ([], Return (acc ++ added)) /\
                 Forall2 reading_of (filter keeps_entry rest) added).
    { intros acc Hacc. apply IH; [exact Hnd' | exact Hacc |].
      intros k d Hin. apply (Hinit k d). now right. }
    assert (Hskip : keeps_entry (key, value) = false ->
               exists added,
                 collect_readings rest readings = ([], Return (readings ++ added)) /\
                 Forall2 reading_of (filter keeps_entry ((key, value) :: rest)) added).
    { intros Hk. simpl. rewrite Hk. apply Hrest.
      intros k Hin. apply Hfresh. now right. }
    destruct value as [| | | | | |d]; cbn [collect_readings];
      try (apply Hskip; reflexivity).
    destruct (dict_mem "actual" d) eqn:Hact; [|apply Hskip; exact Hact].
    destruct (Hinit key d (or_introl eq_refl) Hact) as [r Hr].
    rewrite Hr, bind_lift_return.
    rewrite (dict_set_fresh key r readings) by (apply Hfresh; now left).
    destruct (Hrest (readings ++ [(key, r)])) as (added & Hrun & Hall).
    { intros k Hin. rewrite dict_get_app_fresh by (apply Hfresh; now right).
      simpl. destruct (String.eqb_spec k key) as [->|_]; [contradiction | reflexivity]. }
    exists ((key, r) :: added). rewrite Hrun, <- app_assoc. split; [reflexivity|].
    unfold keeps_entry at 1. simpl. rewrite Hact. constructor; [|exact Hall].
    split; [reflexivity|]. now exists d.
Qed.

(** The loop over the temperature entries stops at the first entry with an
    'actual' key that the model refuses, with the model's exception. *)
Lemma collect_readings_first_refusal (before : dict pyval) :
  forall (readings : dict TemperatureReading) (k : string) (d after : dict pyval)
         (e : exn),
  (forall k' d', In (k', PyDict d') before -> dict_mem "actual" d' = true ->
                 exists r, TemperatureReading_init d' = Return r) ->
  dict_mem "actual" d = true ->
  TemperatureReading_init d = Raise e ->
  collect_readings (before ++ (k, PyDict d) :: after) readings = ([], Raise e).
Proof.
  induction before as [|[key value] rest IH]; intros readings k d after e Hbefore Hact Hinit.
  - cbn [app collect_readings]. now rewrite Hact, Hinit.
  - assert (Hrest : forall acc,
               collect_readings (rest ++ (k, PyDict d) :: after) acc = ([], Raise e)).
    { intros acc. apply IH; [|exact Hact | exact Hinit].
      intros k' d' Hin. apply (Hbefore k' d'). now right. }
    cbn [app]. destruct value as [| | | | | |d0]; cbn [collect_readings];
      try apply Hrest.
    destruct (dict_mem "actual" d0) eqn:Hact0; [|apply Hrest].
    destruct (Hbefore key d0 (or_introl eq_refl) Hact0) as [r0 Hr0].
    rewrite Hr0, bind_lift_return. apply Hrest.
Qed.

(** C10 (as amended): on a successful response whose payload carries a
    "temperature" object, [get_printer_temperatures] builds a reading from
    each entry whose value is a dict with an 'actual' key, in the order of the
    payload, and from no other entry.  If the [TemperatureReading] model
    accepts all of them, the mapping returned has exactly these entries, and
    is empty when no entry has that shape even though the payload carries
    temperature data.  If the model refuses one of them, the call raises the
    model's exception for the first such entry and returns no mapping.  (Keys
    of a decoded JSON object are distinct.) *)
Theorem get_printer_temperatures_keeps_actual_entries
    (self : PrusaLinkPy) (resp : Response) (data : pyval) (temp_data : dict pyval) :
  get_printer self = Return resp ->
  status_code resp <> 409 ->
  error_status (status_code resp) = false ->
  json resp = Return data ->
  get data "temperature" (PyDict []) = Return (PyDict temp_data) ->
  NoDup (keys temp_data) ->
  ((forall k d, In (k, PyDict d) temp_data -> dict_mem "actual" d = true ->
                exists r, TemperatureReading_init d = Return r) ->
   exists readings,
     get_printer_temperatures self = ([GetPrinter], Return readings) /\
     Forall2 reading_of (filter keeps_entry temp_data) readings /\
     ((forall entry, In entry temp_data -> keeps_entry entry = false) ->
      readings = [])) /\
  (forall before k d after e,
      temp_data = before ++ (k, PyDict d) :: after ->
      (forall k' d', In (k', PyDict d') before -> dict_mem "actual" d' = true ->
                     exists r, TemperatureReading_init d' = Return r) ->
      dict_mem "actual" d = true ->
      TemperatureReading_init d = Raise e ->
      get_printer_temperatures self = ([GetPrinter], Raise e)).
Proof.
  intros Hreply Hbusy Hok Hjson Htemp Hnd.
  unfold get_printer_temperatures.
  rewrite Hreply, send_reply, bind_return.
  apply Z.eqb_neq in Hbusy. rewrite Hbusy.
  rewrite (raise_for_status_pass _ Hok), bind_ret, Hjson, bind_lift_return.
  rewrite Htemp, bind_lift_return.
  split.
  - intros Hinit. destruct temp_data as [|entry rest] eqn:Htd.
    + exists []. simpl. repeat split; constructor.
    + rewrite <- Htd in *. replace (truthy (PyDict temp_data)) with true
        by (rewrite Htd; reflexivity).
      simpl negb. cbv iota. unfold items. rewrite bind_lift_return.
      destruct (collect_readings_fresh temp_data [] Hnd (fun _ _ => eq_refl) Hinit)
        as (readings & Hrun & Hall).
      exists readings. simpl in Hrun. rewrite Hrun. simpl.
      split; [reflexivity|]. split; [exact Hall|].
      intros Hnone.
      assert (Hempty : filter keeps_entry temp_data = []).
      { clear -Hnone. induction temp_data as [|x l IH]; simpl; [reflexivity|].
        rewrite (Hnone x (or_introl eq_refl)). apply IH.
        intros y Hy. apply Hnone. now right. }
      rewrite Hempty in Hall. now inversion Hall.
  - intros before k d after e Hsplit Hbefore Hact Hinit.
    replace (truthy (PyDict temp_data)) with true
      by (rewrite Hsplit; now destruct before).
    simpl negb. cbv iota. unfold items. rewrite bind_lift_return, Hsplit.
    now rewrite (collect_readings_first_refusal before [] k d after e Hbefore Hact Hinit).
Qed.

(** C4 (as amended): when [get_printer_temperatures] returns [temps],
    [nozzle_and_bed_temps] returns the four values taken from the "tool0" and
    "bed" entries of [temps], each value of a missing entry being 0.0; in
    particular an empty [temps] gives the all-zero mapping. *)
Theorem nozzle_and_bed_temps_from_entries
    (self : PrusaLinkPy) (t : list request) (temps : dict TemperatureReading) :
  get_printer_temperatures self = (t, Return temps) ->
  nozzle_and_bed_temps self =
    (t, Return
          [("nozzle_actual",
            match dict_get "tool0" temps with Some r => actual r | None => PyFloat 0 end);
           ("nozzle_target",
            match dict_get "tool0" temps with Some r => target r | None => PyFloat 0 end);
           ("bed_actual",
            match dict_get "bed" temps with Some r => actual r | None => PyFloat 0 end);
           ("bed_target",
            match dict_get "bed" temps with Some r => target r | None => PyFloat 0 end)]) /\
  (temps = [] -> nozzle_and_bed_temps self = (t, Return all_zero)).
Proof.
  intros Htemps. unfold nozzle_and_bed_temps. rewrite Htemps, bind_return.
  destruct temps as [|entry rest].
  - simpl. rewrite app_nil_r. split; reflexivity.
  - simpl events. simpl outcome. rewrite app_nil_r.
    split; [reflexivity | discriminate].
Qed.

(** The temperatures that [get_printer_state] reports for [temps]. *)
Lemma get_printer_state_after_temperatures
    (self : PrusaLinkPy) (t : list request) (temps : dict TemperatureReading) :
  get_printer_temperatures self = (t, Return temps) ->
  get_printer_state self =
    (t ++ events (get_job_info self),
     Return (mkPrinterState
               (match outcome (get_job_info self) with
                | Return ji => Some ji
                | Raise _ => None
                end)
               (mkPrinterTemperatures
                  (match dict_get "tool0" temps with Some r => actual r | None => PyNone end)
                  (match dict_get "tool0" temps with Some r => target r | None => PyNone end)
                  (match dict_get "bed" temps with Some r => actual r | None => PyNone end)
                  (match dict_get "bed" temps with Some r => target r | None => PyNone end)))).
Proof.
  intros Htemps. unfold get_printer_state. rewrite Htemps, bind_return.
  destruct (get_job_info self) as [tj [ji|e]]; simpl;
    rewrite ?app_nil_r; reflexivity.
Qed.

(** C1 (as amended): [get_printer_state] raises exactly when the temperature
    query raises, with the same exception.  When the temperature query
    returns, [get_printer_state] returns a state, whether the job-info fetch
    succeeds or fails: its [jobInfoResponse] is absent exactly when
    [get_job_info] raised (and is the fetched job info otherwise), and its
    [temperatureReading] is the nozzle/bed summary of the readings. *)
Theorem get_printer_state_guards_job_info_only (self : PrusaLinkPy) :
  (forall t e,
      get_printer_temperatures self = (t, Raise e) ->
      get_printer_state self = (t, Raise e)) /\
  (forall t temps,
      get_printer_temperatures self = (t, Return temps) ->
      exists ps,
        get_printer_state self = (t ++ events (get_job_info self), Return ps) /\
        (jobInfoResponse ps = None <->
         exists e, outcome (get_job_info self) = Raise e) /\
        (forall ji, outcome (get_job_info self) = Return ji ->
                    jobInfoResponse ps = Some ji) /\
        temperatureReading ps =
          mkPrinterTemperatures
            (match dict_get "tool0" temps with Some r => actual r | None => PyNone end)
            (match dict_get "tool0" temps with Some r => target r | None => PyNone end)
            (match dict_get "bed" temps with Some r => actual r | None => PyNone end)
            (match dict_get "bed" temps with Some r => target r | None => PyNone end)) /\
  (forall e, outcome (get_printer_state self) = Raise e <->
             outcome (get_printer_temperatures self) = Raise e).
Proof.
  split; [|split].
  - intros t e Htemps. unfold get_printer_state. now rewrite Htemps.
  - intros t temps Htemps.
    rewrite (get_printer_state_after_temperatures self t temps Htemps).
    eexists. split; [reflexivity|]. simpl.
    destruct (outcome (get_job_info self)) as [ji|e].
    + repeat split; try discriminate.
      * intros [e He]. discriminate.
      * intros ji' Hji. congruence.
    + repeat split; try discriminate. now exists e.
  - intros e. destruct (get_printer_temperatures self) as [t [temps|e']] eqn:Htemps.
    + rewrite (get_printer_state_after_temperatures self t temps Htemps).
      simpl. split; discriminate.
    + unfold get_printer_state. rewrite Htemps. simpl.
      split; intros He; injection He as ->; reflexivity.
Qed.

(** C7: [get_job_info] merges the two responses.  Whatever the payloads of
    a successful status response and a successful job response are, as long as
    the status carries a job object (and its "printer", if any, is an object),
    the [JobInfoResponse] is built from: job, the "job" of the job response
    (an empty object without one); progress, the "progress", "time_printing"
    and "time_remaining" of the status' job as completion, printTime and
    printTimeLeft; state, the "state" of the status' printer.  So with the
    status response
    [{"job": {"progress": 0.42, "time_printing": 100, "time_remaining": 50},
      "printer": {"state": "PRINTING"}}]
    and the job response [{"job": {"file": {"name": "x.gcode"}}}] it is built
    from job [{file: {name: "x.gcode"}}], progress
    [{completion: 0.42, printTime: 100, printTimeLeft: 50}] and state
    "PRINTING", and with a model that keeps its fields it is the record with
    exactly those fields. *)
Theorem get_job_info_merges_status_and_job :
  (forall (self : PrusaLinkPy) (resp1 resp2 : Response)
          (status_data job_data progress_info printer : dict pyval),
      get_status self = Return resp1 ->
      error_status (status_code resp1) = false ->
      json resp1 = Return (PyDict status_data) ->
      get_job self = Return resp2 ->
      error_status (status_code resp2) = false ->
      json resp2 = Return (PyDict job_data) ->
      dict_get "job" status_data = Some (PyDict progress_info) ->
      match dict_get "printer" status_data with
      | Some v => v
      | None => PyDict []
      end = PyDict printer ->
      get_job_info self =
        ([GetStatus; GetJob],
         JobInfoResponse_init
           [("job", match dict_get "job" job_data with
                    | Some v => v
                    | None => PyDict []
                    end);
            ("progress",
             PyDict [("completion", value_or_none (dict_get "progress" progress_info));
                     ("printTime", value_or_none (dict_get "time_printing" progress_info));
                     ("printTimeLeft",
                      value_or_none (dict_get "time_remaining" progress_info))]);
            ("state", value_or_none (dict_get "state" printer))])) /\
  (forall (self : PrusaLinkPy) (sc1 sc2 : Z),
      get_status self = Return (mkResponse sc1 (Return Sample.status_body)) ->
      get_job self = Return (mkResponse sc2 (Return Sample.job_body)) ->
      error_status sc1 = false ->
      error_status sc2 = false ->
      let merged :=
        [("job", PyDict [("file", PyDict [("name", PyStr "x.gcode")])]);
         ("progress", PyDict [("completion", PyFloat 0.42);
                              ("printTime", PyInt 100);
                              ("printTimeLeft", PyInt 50)]);
         ("state", PyStr "PRINTING")] in
      get_job_info self = ([GetStatus; GetJob], JobInfoResponse_init merged) /\
      (let expected :=
         mkJobInfoResponse
           (PyDict [("file", PyDict [("name", PyStr "x.gcode")])])
           (mkProgress (PyFloat 0.42) (PyInt 100) (PyInt 50))
           (PyStr "PRINTING") in
       JobInfoResponse_init merged = Return expected ->
       get_job_info self = ([GetStatus; GetJob], Return expected))).
Proof.
  assert (Hmerge : forall (self : PrusaLinkPy) (resp1 resp2 : Response)
                     (status_data job_data progress_info printer : dict pyval),
             get_status self = Return resp1 ->
             error_status (status_code resp1) = false ->
             json resp1 = Return (PyDict status_data) ->
             get_job self = Return resp2 ->
             error_status (status_code resp2) = false ->
             json resp2 = Return (PyDict job_data) ->
             dict_get "job" status_data = Some (PyDict progress_info) ->
             match dict_get "printer" status_data with
             | Some v => v
             | None => PyDict []
             end = PyDict printer ->
             get_job_info self =
               ([GetStatus; GetJob],
                JobInfoResponse_init
                  [("job", match dict_get "job" job_data with
                           | Some v => v
                           | None => PyDict []
                           end);
                   ("progress",
                    PyDict [("completion", value_or_none (dict_get "progress" progress_info));
                            ("printTime",
                             value_or_none (dict_get "time_printing" progress_info));
                            ("printTimeLeft",
                             value_or_none (dict_get "time_remaining" progress_info))]);
                   ("state", value_or_none (dict_get "state" printer))])).
  { intros self resp1 resp2 status_data job_data progress_info printer
      Hstatus Hok1 Hjson1 Hjob Hok2 Hjson2 Hprogress Hprinter.
    assert (Hget : forall d k,
               get (PyDict d) k PyNone = Return (value_or_none (dict_get k d))).
    { intros d k. unfold get, value_or_none. now destruct (dict_get k d). }
    unfold get_job_info.
    rewrite Hstatus, send_reply, bind_return.
    rewrite (raise_for_status_pass _ Hok1), bind_ret, Hjson1, bind_lift_return.
    rewrite Hjob, send_reply, bind_return.
    rewrite (raise_for_status_pass _ Hok2), bind_ret, Hjson2, bind_lift_return.
    unfold getitem. rewrite Hprogress, bind_lift_return.
    replace (get (PyDict job_data) "job" (PyDict []))
      with (Return match dict_get "job" job_data with
                   | Some v => v
                   | None => PyDict []
                   end)
      by (unfold get; now destruct (dict_get "job" job_data)).
    rewrite bind_lift_return, !Hget, !bind_lift_return.
    replace (get (PyDict status_data) "printer" (PyDict []))
      with (Return (PyDict printer))
      by (unfold get; rewrite <- Hprinter;
          now destruct (dict_get "printer" status_data)).
    rewrite bind_lift_return, Hget, bind_lift_return.
    unfold events, outcome. cbn [fst snd app lift].
    reflexivity. }
  split; [exact Hmerge|].
  intros self sc1 sc2 Hstatus Hjob Hok1 Hok2 merged.
  assert (Hrun : get_job_info self = ([GetStatus; GetJob], JobInfoResponse_init merged)).
  { exact (Hmerge self _ _ _ _ _ _ Hstatus Hok1 eq_refl Hjob Hok2 eq_refl
             eq_refl eq_refl). }
  split; [exact Hrun|].
  intros expected Hinit. now rewrite Hrun, Hinit.
Qed.

End PrusaLinkFacts.

Lemma get_printer_temperatures_non_success_witness :
  PrusaLinkPyClient.get_printer_temperatures (models := Sample.plain_models) Sample.busy
    = ([GetPrinter], Return []) /\
  PrusaLinkPyClient.get_printer_temperatures (models := Sample.plain_models) Sample.failing
    = ([GetPrinter], Raise (HTTPError 500)).
Proof.
  split.
  - apply (get_printer_temperatures_non_success (models := Sample.plain_models)
             Sample.busy (mkResponse 409 (Raise JSONDecodeError)));
      reflexivity.
  - apply (get_printer_temperatures_non_success (models := Sample.plain_models)
             Sample.failing (mkResponse 500 (Raise JSONDecodeError)));
      reflexivity.
Defined.

(** ** The glue code of printer_utils *)

Section TraceFacts.

Lemma count_app (p : event -> bool) (t1 t2 : trace) :
  count p (t1 ++ t2) = (count p t1 + count p t2)%nat.
Proof. unfold count. now rewrite filter_app, length_app. Qed.

Lemma count_requests (p : event -> bool) (rs : list request) :
  (forall r, p (Http r) = false) -> count p (map Http rs) = 0%nat.
Proof.
  intros Hp. unfold count. induction rs as [|r rs IH]; simpl; [reflexivity|].
  now rewrite Hp.
Qed.

Lemma count_cons (p : event -> bool) (ev : event) (t : trace) :
  count p (ev :: t) = ((if p ev then 1 else 0) + count p t)%nat.
Proof. unfold count. simpl. now destruct (p ev). Qed.

Lemma commands_app (t1 t2 : trace) :
  commands (t1 ++ t2) = commands t1 ++ commands t2.
Proof.
  induction t1 as [|ev t1 IH]; simpl; [reflexivity|].
  destruct ev as [r|m|l f|s|q|q|u]; try exact IH.
  destruct m; simpl; now rewrite ?IH.
Qed.

Lemma commands_requests (rs : list request) : commands (map Http rs) = [].
Proof. induction rs as [|r rs IH]; simpl; [reflexivity | exact IH]. Qed.

End TraceFacts.

Section PrinterUtilsFacts.
Context {models : Models}.
Import PrinterUtils.


(** What [start_printer_state_polling] does once the configuration and the
    polling rate are at hand. *)
Lemma start_polling_after_rate (w : World) (camera_uuid : string)
    (cfg config rate_ms : pyval) (rate : Q) :
  get_printer_config w camera_uuid = ([], Return cfg) ->
  truthy cfg = true ->
  get_config w = Return config ->
  get config SavedConfig_PRINTER_STAT_POLLING_RATE_MS
      (PRINTER_STAT_POLLING_RATE_MS w) = Return rate_ms ->
  rate_of rate_ms = Return rate ->
  forall r : result PrinterType,
  resolve_printer_type cfg = ([], r) ->
  start_printer_state_polling w camera_uuid =
    match r with
    | Raise e => ([], Raise e)
    | Return printer_type =>
        match factory_get printer_type CLIENT_FACTORY with
        | None => ([Log ERROR "Unsupported printer type: {printer_type}"], Return tt)
        | Some client_class =>
            base_url <- lift (get cfg "base_url" PyNone) ;;
            api_key <- lift (get cfg "api_key" PyNone) ;;
            client <- lift (construct w client_class base_url api_key) ;;
            emit (CreateTask rate) ;;
            emit (AddPollingTask camera_uuid) ;;
            lift (add_polling_task w camera_uuid) ;;
            emit (Log DEBUG "Started printer state polling for camera index %d using {client_class.__name__}")
        end
    end.
Proof.
  intros Hcfg Htruthy Hconfig Hrate_ms Hrate r Htype.
  unfold start_printer_state_polling.
  rewrite Hcfg, bind_pure, Htruthy. simpl negb. cbv iota.
  rewrite Hconfig, bind_lift_return, Hrate_ms, bind_lift_return.
  rewrite Hrate, bind_lift_return, Htype.
  destruct r as [printer_type|e]; [|reflexivity].
  rewrite bind_pure.
  destruct (factory_get printer_type CLIENT_FACTORY); reflexivity.
Qed.

(** C3: the two set-up errors that [start_printer_state_polling] handles, and
    the one it does not.  Without printer configuration it logs a warning and
    returns; with a printer type that is a [PrinterType] member without
    registered client it logs an error and returns; in both cases no task is
    created.  With a printer type that is no [PrinterType] value at all, the
    enumeration call raises [ValueError] before the unsupported-type check is
    reached: nothing is logged and the exception leaves the function. *)
Theorem start_polling_setup_errors (w : World) (camera_uuid : string) :
  (forall cfg,
      get_printer_config w camera_uuid = ([], Return cfg) ->
      truthy cfg = false ->
      start_printer_state_polling w camera_uuid =
        ([Log WARNING "No printer configuration found for camera UUID %s"],
         Return tt)) /\
  (forall cfg config rate_ms rate,
      get_printer_config w camera_uuid = ([], Return (PyDict cfg)) ->
      cfg <> [] ->
      get_config w = Return config ->
      get config SavedConfig_PRINTER_STAT_POLLING_RATE_MS
          (PRINTER_STAT_POLLING_RATE_MS w) = Return rate_ms ->
      rate_of rate_ms = Return rate ->
      forall s,
      dict_get "printer_type" cfg = Some (PyStr s) ->
      s <> "" ->
      (forall t, dict_get s PrinterType_values = Some t ->
                 factory_get t CLIENT_FACTORY = None ->
                 start_printer_state_polling w camera_uuid =
                   ([Log ERROR "Unsupported printer type: {printer_type}"],
                    Return tt)) /\
      (dict_get s PrinterType_values = None ->
       start_printer_state_polling w camera_uuid = ([], Raise ValueError))).
Proof.
  split.
  - intros cfg Hcfg Hfalsy. unfold start_printer_state_polling.
    rewrite Hcfg, bind_pure. now rewrite Hfalsy.
  - intros cfg config rate_ms rate Hcfg Hne Hconfig Hrate_ms Hrate s Htype Hs.
    assert (Htruthy : truthy (PyDict cfg) = true)
      by (destruct cfg; [contradiction | reflexivity]).
    assert (Hstr : truthy (PyStr s) = true).
    { simpl. destruct (String.eqb_spec s ""); [contradiction | reflexivity]. }
    assert (Hresolve : resolve_printer_type (PyDict cfg)
                       = ([], PrinterType_call (PyStr s))).
    { unfold resolve_printer_type, get. rewrite Htype, bind_lift_return.
      now rewrite Hstr. }
    pose proof (start_polling_after_rate w camera_uuid (PyDict cfg) config
                  rate_ms rate Hcfg Htruthy Hconfig Hrate_ms Hrate _ Hresolve)
      as Hrun.
    split.
    + intros t Hmember Hnone. rewrite Hrun. unfold PrinterType_call.
      now rewrite Hmember, Hnone.
    + intros Hunknown. rewrite Hrun. unfold PrinterType_call.
      now rewrite Hunknown.
Qed.

(** The set-up of [suspend_print_job] emits nothing and hands the client
    it built to the [try] statement, or lets the failure of the client class
    through. *)
Lemma suspend_print_job_after_setup (w : World) (camera_uuid : string)
    (action : AlertAction) (built : result Client) :
  construction w camera_uuid built ->
  suspend_print_job w camera_uuid action =
    match built with
    | Return client => suspend_attempt client action
    | Raise e => ([], Raise e)
    end.
Proof.
  intros (cfg & t & cls & Hcfg & Htruthy & Htype & Hcls
          & base_url & api_key & Hurl & Hkey & Hbuilt).
  unfold suspend_print_job.
  rewrite Hcfg, bind_pure, Htruthy. simpl negb. cbv iota.
  rewrite Htype, bind_pure, Hcls, Hurl, bind_lift_return, Hkey, bind_lift_return.
  rewrite Hbuilt. destruct built as [client|e]; [|reflexivity].
  now rewrite bind_lift_return.
Qed.

Lemma suspend_attempt_fetch_raises (client : Client) (action : AlertAction)
    (tj : list request) (e : exn) :
  get_job_info client = (tj, Raise e) ->
  suspend_attempt client action =
    (Invoke m_get_job_info :: map Http tj ++
       [Log ERROR "Error suspending print job for printer on camera %s: %s"],
     Return false).
Proof. intros Hjob. unfold suspend_attempt, call. now rewrite Hjob. Qed.

Lemma suspend_attempt_not_printing (client : Client) (action : AlertAction)
    (tj : list request) (ji : JobInfoResponse) :
  get_job_info client = (tj, Return ji) ->
  is_printing (state ji) = false ->
  suspend_attempt client action =
    (Invoke m_get_job_info :: map Http tj ++
       [Log DEBUG "No active print job to suspend for camera %s."],
     Return true).
Proof.
  intros Hjob Hidle. unfold suspend_attempt, call. rewrite Hjob. simpl.
  now rewrite Hidle.
Qed.

(** A command sent to a printing printer: the call, then a debug line and
    [True], or the error line and [False] when the command raised. *)
Lemma suspend_attempt_command (client : Client) (action : AlertAction)
    (tj : list request) (ji : JobInfoResponse)
    (m : method) (body : M request unit) (done : string) :
  get_job_info client = (tj, Return ji) ->
  is_printing (state ji) = true ->
  (action = CANCEL_PRINT /\ m = m_cancel_job /\ body = cancel_job client /\
   done = "Print cancelled for printer on camera %s.") \/
  (action = PAUSE_PRINT /\ m = m_pause_job /\ body = pause_job client /\
   done = "Print paused for printer on camera %s.") ->
  suspend_attempt client action =
    (Invoke m_get_job_info :: map Http tj ++
       Invoke m :: map Http (events body) ++
       [if returns body then Log DEBUG done
        else Log ERROR "Error suspending print job for printer on camera %s: %s"],
     Return (returns body)).
Proof.
  intros Hjob Hprinting Hcase. unfold suspend_attempt, call. rewrite Hjob.
  simpl. rewrite Hprinting. simpl.
  destruct Hcase as [(-> & -> & -> & ->)|(-> & -> & -> & ->)].
  - unfold returns. destruct (cancel_job client) as [tc [[]|e]]; simpl;
      now rewrite <- ?app_assoc.
  - unfold returns. destruct (pause_job client) as [tp [[]|e]]; simpl;
      now rewrite <- ?app_assoc.
Qed.

Lemma suspend_attempt_other_action (client : Client) (name : string)
    (tj : list request) (ji : JobInfoResponse) :
  get_job_info client = (tj, Return ji) ->
  is_printing (state ji) = true ->
  suspend_attempt client (OtherAction name) =
    (Invoke m_get_job_info :: map Http tj, Return true).
Proof.
  intros Hjob Hprinting. unfold suspend_attempt, call. rewrite Hjob.
  simpl. rewrite Hprinting. simpl. now rewrite app_nil_r.
Qed.

(** C2 (as amended): [suspend_print_job] returns [False] when the camera has
    no printer configuration and when the printer type has no registered
    client.  Once the client has been built it always returns a boolean: an
    exception of the job-info fetch, or of the cancel or pause command, is
    caught and turned into [False].  An exception raised by the client class
    while the client is built is not caught and leaves the function. *)
Theorem suspend_print_job_boolean_once_built (w : World) (camera_uuid : string)
    (action : AlertAction) :
  (forall cfg,
      get_printer_config w camera_uuid = ([], Return cfg) ->
      truthy cfg = false ->
      suspend_print_job w camera_uuid action =
        ([Log ERROR "No printer configuration found for camera UUID %s"],
         Return false)) /\
  (forall cfg t,
      get_printer_config w camera_uuid = ([], Return cfg) ->
      truthy cfg = true ->
      resolve_printer_type cfg = ([], Return t) ->
      factory_get t CLIENT_FACTORY = None ->
      suspend_print_job w camera_uuid action =
        ([Log ERROR "Unsupported printer type: {printer_type}"], Return false)) /\
  (forall client,
      construction w camera_uuid (Return client) ->
      exists b,
        outcome (suspend_print_job w camera_uuid action) = Return b /\
        (returns (get_job_info client) = false -> b = false) /\
        (forall ji,
            outcome (get_job_info client) = Return ji ->
            is_printing (state ji) = true ->
            (action = CANCEL_PRINT -> b = returns (cancel_job client)) /\
            (action = PAUSE_PRINT -> b = returns (pause_job client)))) /\
  (forall e,
      construction w camera_uuid (Raise e) ->
      suspend_print_job w camera_uuid action = ([], Raise e)).
Proof.
  split; [|split; [|split]].
  - intros cfg Hcfg Hfalsy. unfold suspend_print_job.
    rewrite Hcfg, bind_pure. now rewrite Hfalsy.
  - intros cfg t Hcfg Htruthy Htype Hnone. unfold suspend_print_job.
    rewrite Hcfg, bind_pure, Htruthy. simpl negb. cbv iota.
    now rewrite Htype, bind_pure, Hnone.
  - intros client Hbuilt.
    rewrite (suspend_print_job_after_setup w camera_uuid action _ Hbuilt).
    destruct (get_job_info client) as [tj [ji|e]] eqn:Hjob.
    + destruct (is_printing (state ji)) eqn:Hprinting.
      * destruct action as [| |name].
        -- rewrite (suspend_attempt_command client CANCEL_PRINT tj ji m_cancel_job
                      (cancel_job client) _ Hjob Hprinting
                      (or_introl (conj eq_refl (conj eq_refl (conj eq_refl eq_refl))))).
           eexists. split; [reflexivity|]. split; [discriminate|].
           intros ji' _ _. split; [reflexivity | discriminate].
        -- rewrite (suspend_attempt_command client PAUSE_PRINT tj ji m_pause_job
                      (pause_job client) _ Hjob Hprinting
                      (or_intror (conj eq_refl (conj eq_refl (conj eq_refl eq_refl))))).
           eexists. split; [reflexivity|]. split; [discriminate|].
           intros ji' _ _. split; [discriminate | reflexivity].
        -- rewrite (suspend_attempt_other_action client name tj ji Hjob Hprinting).
           exists true. split; [reflexivity|]. split; [discriminate|].
           intros ji' _ _. split; discriminate.
      * rewrite (suspend_attempt_not_printing client action tj ji Hjob Hprinting).
        exists true. split; [reflexivity|]. split; [discriminate|].
        intros ji' Hji. simpl in Hji. injection Hji as <-. congruence.
    + rewrite (suspend_attempt_fetch_raises client action tj e Hjob).
      exists false. split; [reflexivity|]. split; [reflexivity|].
      intros ji Hji. discriminate.
  - intros e Hbuilt.
    exact (suspend_print_job_after_setup w camera_uuid action _ Hbuilt).
Qed.

(** C8: when [suspend_print_job] has fetched the job info, a job state other
    than the strings "Printing" and "PRINTING" (compared as they are written)
    makes it return [True] with no cancel or pause command issued; otherwise
    it issues cancel, and only cancel, for [CANCEL_PRINT], pause, and only
    pause, for [PAUSE_PRINT] (the result telling whether the command went
    through), and for any other action returns [True] with no command. *)
Theorem suspend_print_job_dispatch (w : World) (camera_uuid : string)
    (action : AlertAction) (client : Client)
    (tj : list request) (ji : JobInfoResponse) :
  construction w camera_uuid (Return client) ->
  get_job_info client = (tj, Return ji) ->
  (is_printing (state ji) = true <->
   state ji = PyStr "Printing" \/ state ji = PyStr "PRINTING") /\
  (is_printing (state ji) = false ->
   outcome (suspend_print_job w camera_uuid action) = Return true /\
   commands (events (suspend_print_job w camera_uuid action)) = []) /\
  (is_printing (state ji) = true ->
   match action with
   | CANCEL_PRINT =>
       commands (events (suspend_print_job w camera_uuid action)) = [m_cancel_job] /\
       outcome (suspend_print_job w camera_uuid action)
         = Return (returns (cancel_job client))
   | PAUSE_PRINT =>
       commands (events (suspend_print_job w camera_uuid action)) = [m_pause_job] /\
       outcome (suspend_print_job w camera_uuid action)
         = Return (returns (pause_job client))
   | OtherAction _ =>
       commands (events (suspend_print_job w camera_uuid action)) = [] /\
       outcome (suspend_print_job w camera_uuid action) = Return true
   end).
Proof.
  intros Hbuilt Hjob.
  rewrite (suspend_print_job_after_setup w camera_uuid action _ Hbuilt).
  split; [|split].
  - destruct (state ji) as [| | | |s| |]; simpl;
      try (split; [discriminate | intros [H|H]; discriminate]).
    rewrite orb_true_iff. split.
    + intros [H|H]; apply String.eqb_eq in H; subst; auto.
    + intros [H|H]; injection H as ->; auto.
  - intros Hidle.
    rewrite (suspend_attempt_not_printing client action tj ji Hjob Hidle).
    split; [reflexivity|]. unfold events. simpl.
    now rewrite commands_app, commands_requests.
  - intros Hprinting. destruct action as [| |name].
    + rewrite (suspend_attempt_command client CANCEL_PRINT tj ji m_cancel_job
                 (cancel_job client) _ Hjob Hprinting
                 (or_introl (conj eq_refl (conj eq_refl (conj eq_refl eq_refl))))).
      split; [|reflexivity]. unfold events at 1. simpl.
      rewrite commands_app, commands_requests. simpl.
      rewrite commands_app, commands_requests.
      now destruct (returns (cancel_job client)).
    + rewrite (suspend_attempt_command client PAUSE_PRINT tj ji m_pause_job
                 (pause_job client) _ Hjob Hprinting
                 (or_intror (conj eq_refl (conj eq_refl (conj eq_refl eq_refl))))).
      split; [|reflexivity]. unfold events at 1. simpl.
      rewrite commands_app, commands_requests. simpl.
      rewrite commands_app, commands_requests.
      now destruct (returns (pause_job client)).
    + rewrite (suspend_attempt_other_action client name tj ji Hjob Hprinting).
      split; [|reflexivity]. unfold events. simpl. apply commands_requests.
Qed.

Ltac count_events :=
  rewrite ?count_cons, ?count_app, ?count_cons, ?count_requests by reflexivity;
  reflexivity.

(** One pass through the loop body never raises: it polls once, pushes the
    state if the poll returned one, and sleeps once. *)
Lemma poll_once_cycle (s : Schedule) (interval : Q) (n : nat) :
  exists t,
    poll_once s interval n = (t, Return tt) /\
    count is_poll t = 1%nat /\
    count is_sleep t = 1%nat /\
    count is_push t =
      (if returns (get_printer_state (client_at s n)) then 1 else 0)%nat.
Proof.
  unfold poll_once, call, returns.
  destruct (get_printer_state (client_at s n)) as [tq [ps|e]]; simpl.
  - destruct (sse_update_printer_state s n ps) as [[]|e]; simpl;
      (eexists; split; [reflexivity|]); repeat split; count_events.
  - (eexists; split; [reflexivity|]); repeat split; count_events.
Qed.

Lemma polls_returned_bound (s : Schedule) (k : nat) :
  forall n, (polls_returned s n k <= k)%nat.
Proof.
  induction k as [|k IH]; intros n; simpl; [lia|].
  specialize (IH (S n)).
  destruct (returns (get_printer_state (client_at s n))); lia.
Qed.

(** The loop entered at its [n]-th test, with the stop event first seen set
    [k] tests later. *)
Lemma poll_loop_from (s : Schedule) (interval : Q) (k : nat) :
  forall n fuel,
  (forall i, (n <= i < n + k)%nat -> is_set s i = false) ->
  is_set s (n + k) = true ->
  (k < fuel)%nat ->
  exists t,
    poll_printer_state_func fuel s interval n = (t, Some (Return tt)) /\
    count is_poll t = k /\
    count is_sleep t = k /\
    count is_push t = polls_returned s n k /\
    (k = 0%nat -> t = []).
Proof.
  induction k as [|k IH]; intros n fuel Hrun Hstop Hfuel;
    (destruct fuel as [|fuel]; [lia|]); simpl.
  - rewrite Nat.add_0_r in Hstop. rewrite Hstop.
    exists []. repeat split.
  - rewrite (Hrun n) by lia.
    destruct (poll_once_cycle s interval n) as (t1 & Honce & Hpoll & Hsleep & Hpush).
    rewrite Honce.
    destruct (IH (S n) fuel) as (t2 & Hrest & Hpoll2 & Hsleep2 & Hpush2 & _).
    + intros i Hi. apply Hrun. lia.
    + now replace (S n + k)%nat with (n + S k)%nat by lia.
    + lia.
    + rewrite Hrest. exists (t1 ++ t2). rewrite !count_app.
      repeat split; lia.
Qed.

(** C5: if the stop event is seen set at the [N]-th test and not before
    (after [N] sleeps), the polling loop ends normally after exactly [N]
    cycles: [N] polls, [N] sleeps, and one push for each poll that returned a
    state, a failed poll giving no push.  No poll or push exception ends the
    loop.  With [N = 0] (stop set before the first iteration) nothing happens
    at all, so no push occurs. *)
Theorem polling_loop_cycles (s : Schedule) (interval : Q) (N fuel : nat) :
  (forall i, (i < N)%nat -> is_set s i = false) ->
  is_set s N = true ->
  (N < fuel)%nat ->
  exists t,
    poll_printer_state_func fuel s interval 0 = (t, Some (Return tt)) /\
    count is_poll t = N /\
    count is_sleep t = N /\
    count is_push t = polls_returned s 0 N /\
    (count is_push t <= N)%nat /\
    (N = 0%nat -> t = []).
Proof.
  intros Hrun Hstop Hfuel.
  destruct (poll_loop_from s interval N 0 fuel) as (t & Hloop & Hpoll & Hsleep & Hpush & Hnone).
  - intros i Hi. apply Hrun. lia.
  - exact Hstop.
  - exact Hfuel.
  - exists t. repeat split; try assumption.
    rewrite Hpush. apply polls_returned_bound.
Qed.

End PrinterUtilsFacts.

(** ** The statements at the sample installations *)

Section Samples.
Import Sample.

Lemma get_printer_temperatures_keeps_actual_entries_witness :
  (exists readings,
      PrusaLinkPyClient.get_printer_temperatures (models := plain_models) printing
        = ([GetPrinter], Return readings) /\
      Forall2 (@reading_of plain_models)
        [("tool0", PyDict [("actual", PyFloat 215.0); ("target", PyFloat 220.0)]);
         ("bed", PyDict [("actual", PyFloat 60.0); ("target", PyFloat 60.0)])]
        readings) /\
  (exists readings,
      PrusaLinkPyClient.get_printer_temperatures (models := plain_models) bare_numbers
        = ([GetPrinter], Return readings) /\
      readings = []) /\
  PrusaLinkPyClient.get_printer_temperatures (models := strict_models) garbled_nozzle
    = ([GetPrinter], Raise ValidationError).
Proof.
  split; [|split].
  - destruct (proj1 (get_printer_temperatures_keeps_actual_entries
                       (models := plain_models) printing
                       (mkResponse 200 (Return printer_body)) printer_body
                       [("tool0", PyDict [("actual", PyFloat 215.0);
                                          ("target", PyFloat 220.0)]);
                        ("bed", PyDict [("actual", PyFloat 60.0);
                                        ("target", PyFloat 60.0)]);
                        ("units", PyStr "C")]
                       eq_refl ltac:(discriminate) eq_refl eq_refl eq_refl
                       ltac:(repeat constructor; simpl; intuition discriminate)))
      as (readings & Hrun & Hall & _).
    + intros k d _ _. eexists. reflexivity.
    + exists readings. split; [exact Hrun | exact Hall].
  - destruct (proj1 (get_printer_temperatures_keeps_actual_entries
                       (models := plain_models) bare_numbers
                       (mkResponse 200
                          (Return (PyDict [("temperature",
                                            PyDict [("tool0", PyFloat 215.0);
                                                    ("bed", PyFloat 60.0)])])))
                       (PyDict [("temperature",
                                 PyDict [("tool0", PyFloat 215.0); ("bed", PyFloat 60.0)])])
                       [("tool0", PyFloat 215.0); ("bed", PyFloat 60.0)]
                       eq_refl ltac:(discriminate) eq_refl eq_refl eq_refl
                       ltac:(repeat constructor; simpl; intuition discriminate)))
      as (readings & Hrun & _ & Hempty).
    + intros k d _ _. eexists. reflexivity.
    + exists readings. split; [exact Hrun|]. apply Hempty.
      intros entry [<-|[<-|[]]]; reflexivity.
  - refine (proj2 (get_printer_temperatures_keeps_actual_entries
                     (models := strict_models) garbled_nozzle _ _
                     [("bed", PyDict [("actual", PyFloat 60.0); ("target", PyFloat 60.0);
                                      ("offset", PyInt 0)]);
                      ("tool0", PyDict [("actual", PyStr "hot"); ("target", PyFloat 220.0);
                                        ("offset", PyInt 0)])]
                     eq_refl ltac:(discriminate) eq_refl eq_refl eq_refl
                     ltac:(repeat constructor; simpl; intuition discriminate))
                  [("bed", PyDict [("actual", PyFloat 60.0); ("target", PyFloat 60.0);
                                   ("offset", PyInt 0)])]
                  "tool0"
                  [("actual", PyStr "hot"); ("target", PyFloat 220.0); ("offset", PyInt 0)]
                  [] ValidationError eq_refl _ eq_refl eq_refl).
    intros k' d' [[= <- <-]|[]] _. eexists. reflexivity.
Defined.

(** C10, the claim as first stated: an entry that is a dict with an 'actual'
    key is not always included.  The nozzle entry below has the key, the
    reading model refuses its value, and the call raises instead of returning
    a mapping, the accepted bed entry included. *)
Lemma get_printer_temperatures_entry_with_actual_not_included :
  PrusaLinkPyClient.has_actual
    (PyDict [("actual", PyStr "hot"); ("target", PyFloat 220.0); ("offset", PyInt 0)])
    = true /\
  PrusaLinkPyClient.get_printer_temperatures (models := strict_models) garbled_nozzle
    = ([GetPrinter], Raise ValidationError) /\
  ~ exists readings,
      outcome (PrusaLinkPyClient.get_printer_temperatures
                 (models := strict_models) garbled_nozzle)
        = Return readings.
Proof.
  split; [reflexivity|]. split; [reflexivity|].
  intros [readings Hrun]. discriminate Hrun.
Qed.

Lemma nozzle_and_bed_temps_from_entries_witness :
  PrusaLinkPyClient.nozzle_and_bed_temps (models := plain_models) printing
    = ([GetPrinter],
       Return [("nozzle_actual", PyFloat 215.0); ("nozzle_target", PyFloat 220.0);
               ("bed_actual", PyFloat 60.0); ("bed_target", PyFloat 60.0)]) /\
  PrusaLinkPyClient.nozzle_and_bed_temps (models := plain_models) busy
    = ([GetPrinter], Return all_zero).
Proof.
  split.
  - exact (proj1 (nozzle_and_bed_temps_from_entries (models := plain_models)
                    printing [GetPrinter]
                    [("tool0", mkTemperatureReading (PyFloat 215.0) (PyFloat 220.0));
                     ("bed", mkTemperatureReading (PyFloat 60.0) (PyFloat 60.0))]
                    eq_refl)).
  - exact (proj2 (nozzle_and_bed_temps_from_entries (models := plain_models)
                    busy [GetPrinter] [] eq_refl) eq_refl).
Defined.

(** C4, the claim as first stated: the all-zero mapping does not tell that
    the readings were empty.  A printer that reports only a chamber sensor has
    a non-empty mapping of readings and gets the all-zero mapping all the
    same. *)
Lemma nozzle_and_bed_temps_zero_not_only_if_empty :
  outcome (PrusaLinkPyClient.nozzle_and_bed_temps (models := plain_models) chamber_only)
    = Return all_zero /\
  outcome (PrusaLinkPyClient.get_printer_temperatures (models := plain_models) chamber_only)
    = Return [("chamber", mkTemperatureReading (PyFloat 28.5) (PyFloat 0))] /\
  ~ (outcome (PrusaLinkPyClient.nozzle_and_bed_temps (models := plain_models) chamber_only)
       = Return all_zero <->
     outcome (PrusaLinkPyClient.get_printer_temperatures (models := plain_models) chamber_only)
       = Return []).
Proof.
  split; [reflexivity|]. split; [reflexivity|].
  intros [Hzero _]. specialize (Hzero eq_refl). discriminate Hzero.
Qed.

Lemma get_printer_state_guards_job_info_only_witness :
  exists ps,
    PrusaLinkPyClient.get_printer_state (models := plain_models) idle
      = ([GetPrinter; GetStatus; GetJob], Return ps) /\
    jobInfoResponse ps = None /\
    temperatureReading ps =
      mkPrinterTemperatures (PyFloat 215.0) (PyFloat 220.0) (PyFloat 60.0) (PyFloat 60.0).
Proof.
  destruct (proj1 (proj2 (get_printer_state_guards_job_info_only
                            (models := plain_models) idle))
              [GetPrinter]
              [("tool0", mkTemperatureReading (PyFloat 215.0) (PyFloat 220.0));
               ("bed", mkTemperatureReading (PyFloat 60.0) (PyFloat 60.0))]
              eq_refl)
    as (ps & Hrun & Hnone & _ & Htemps).
  exists ps. split; [exact Hrun|]. split; [|exact Htemps].
  apply Hnone. exists JSONDecodeError. reflexivity.
Defined.

(** C1, the claim as first stated: [get_printer_state] does raise.  The
    temperature query comes before the guarded job-info fetch, and a printer
    answering it with 500 makes the whole call raise [HTTPError]. *)
Lemma get_printer_state_raises_on_temperature_error :
  PrusaLinkPyClient.get_printer_state (models := plain_models) failing
    = ([GetPrinter], Raise (HTTPError 500)).
Proof. reflexivity. Qed.

Lemma get_job_info_merges_status_and_job_witness :
  PrusaLinkPyClient.get_job_info (models := plain_models) printing =
    ([GetStatus; GetJob],
     Return (mkJobInfoResponse
               (PyDict [("file", PyDict [("name", PyStr "x.gcode")])])
               (mkProgress (PyFloat 0.42) (PyInt 100) (PyInt 50))
               (PyStr "PRINTING"))) /\
  PrusaLinkPyClient.get_job_info (models := plain_models) starting =
    ([GetStatus; GetJob],
     Return (mkJobInfoResponse
               (PyDict [("id", PyInt 7)])
               (mkProgress PyNone PyNone PyNone)
               (PyStr "PRINTING"))).
Proof.
  split.
  - apply (proj2 (proj2 (get_job_info_merges_status_and_job (models := plain_models))
                    printing 200 200 eq_refl eq_refl eq_refl eq_refl)).
    reflexivity.
  - exact (proj1 (get_job_info_merges_status_and_job (models := plain_models))
             starting _ _
             [("job", PyDict [("id", PyInt 7)]);
              ("printer", PyDict [("state", PyStr "PRINTING")])]
             [("job", PyDict [("id", PyInt 7)])]
             [("id", PyInt 7)] [("state", PyStr "PRINTING")]
             eq_refl eq_refl eq_refl eq_refl eq_refl eq_refl eq_refl eq_refl).
Defined.


Lemma start_polling_setup_errors_witness :
  PrinterUtils.start_printer_state_polling (models := plain_models)
      (world printing octoprint) "cam-bare"
    = ([Log WARNING "No printer configuration found for camera UUID %s"], Return tt) /\
  PrinterUtils.start_printer_state_polling (models := wider_models)
      (world printing octoprint) "cam-klipper"
    = ([Log ERROR "Unsupported printer type: {printer_type}"], Return tt) /\
  PrinterUtils.start_printer_state_polling (models := plain_models)
      (world printing octoprint) "cam-klipper"
    = ([], Raise ValueError).
Proof.
  split; [|split].
  - apply (proj1 (start_polling_setup_errors (models := plain_models)
                    (world printing octoprint) "cam-bare") PyNone);
      reflexivity.
  - refine (proj1 (proj2 (start_polling_setup_errors (models := wider_models)
                            (world printing octoprint) "cam-klipper")
                     [("printer_type", PyStr "klipper");
                      ("base_url", PyStr "192.168.1.20");
                      ("api_key", PyStr "secret");
                      ("name", PyStr "workshop")]
                     (PyDict []) (PyInt 2000) (2000 # 1000)%Q
                     eq_refl _ eq_refl eq_refl eq_refl "klipper" eq_refl _)
                  (OtherPrinterType "KLIPPER") eq_refl eq_refl);
      discriminate.
  - refine (proj2 (proj2 (start_polling_setup_errors (models := plain_models)
                            (world printing octoprint) "cam-klipper")
                     [("printer_type", PyStr "klipper");
                      ("base_url", PyStr "192.168.1.20");
                      ("api_key", PyStr "secret");
                      ("name", PyStr "workshop")]
                     (PyDict []) (PyInt 2000) (2000 # 1000)%Q
                     eq_refl _ eq_refl eq_refl eq_refl "klipper" eq_refl _)
                  eq_refl);
      discriminate.
Defined.

(** The client that [suspend_print_job] builds for a PrusaLink camera. *)
Lemma prusa_camera_construction (printer : PrusaLinkPy) (octo : Client) :
  construction (H := plain_models) (world printer octo) "cam-prusa"
    (Return (mkClient (PrusaLinkPyClient.get_job_info (models := plain_models) printer)
                      (PrusaLinkPyClient.cancel_job printer)
                      (PrusaLinkPyClient.pause_job printer)
                      (PrusaLinkPyClient.get_printer_state (models := plain_models) printer))).
Proof.
  exists (printer_config [("printer_type", PyStr "prusalinkpy")]),
         PRUSALINKPY, PrusaLinkPyClient.
  repeat (split; [reflexivity|]).
  exists (PyStr "192.168.1.20"), (PyStr "secret").
  repeat split.
Defined.

Lemma octo_camera_construction (printer : PrusaLinkPy) (octo : Client) :
  construction (H := plain_models) (world printer octo) "cam-octo" (Return octo).
Proof.
  exists (printer_config [("printer_type", PyStr "octoprint")]),
         OCTOPRINT, OctoPrintClient.
  repeat (split; [reflexivity|]).
  exists (PyStr "192.168.1.20"), (PyStr "secret").
  repeat split.
Defined.

Lemma suspend_print_job_boolean_once_built_witness :
  (exists b,
      outcome (PrinterUtils.suspend_print_job (models := plain_models)
                 (world idle octoprint) "cam-prusa" CANCEL_PRINT) = Return b /\
      b = false) /\
  (exists b,
      outcome (PrinterUtils.suspend_print_job (models := plain_models)
                 (world printing octoprint) "cam-octo" PAUSE_PRINT) = Return b /\
      b = false).
Proof.
  split.
  - destruct (proj1 (proj2 (proj2 (suspend_print_job_boolean_once_built
                                     (models := plain_models)
                                     (world idle octoprint) "cam-prusa" CANCEL_PRINT)))
                _ (prusa_camera_construction idle octoprint))
      as (b & Hrun & Hfetch & _).
    exists b. split; [exact Hrun|]. apply Hfetch. reflexivity.
  - destruct (proj1 (proj2 (proj2 (suspend_print_job_boolean_once_built
                                     (models := plain_models)
                                     (world printing octoprint) "cam-octo" PAUSE_PRINT)))
                _ (octo_camera_construction printing octoprint))
      as (b & Hrun & _ & Haction).
    exists b. split; [exact Hrun|].
    apply (proj2 (Haction _ eq_refl eq_refl)). reflexivity.
Defined.

(** C2, the claim as first stated: [suspend_print_job] does raise.  The
    printer type is resolved and the client is built before the [try]
    statement is entered: for a camera whose OctoPrint configuration has no
    base URL the client class raises, for a camera whose printer type is no
    [PrinterType] value the enumeration call raises, and either exception
    reaches the caller instead of becoming [False]. *)
Lemma suspend_print_job_raises_before_try :
  PrinterUtils.suspend_print_job (models := plain_models)
      (world printing octoprint) "cam-no-url" CANCEL_PRINT
    = ([], Raise (AttributeError "rstrip")) /\
  PrinterUtils.suspend_print_job (models := plain_models)
      (world printing octoprint) "cam-klipper" CANCEL_PRINT
    = ([], Raise ValueError).
Proof. split; reflexivity. Qed.

Lemma suspend_print_job_dispatch_witness :
  outcome (PrinterUtils.suspend_print_job (models := plain_models)
             (world printing octoprint_operational) "cam-octo" CANCEL_PRINT)
    = Return true /\
  commands (events (PrinterUtils.suspend_print_job (models := plain_models)
                      (world printing octoprint_operational) "cam-octo" CANCEL_PRINT))
    = [] /\
  commands (events (PrinterUtils.suspend_print_job (models := plain_models)
                      (world printing octoprint) "cam-prusa" PAUSE_PRINT))
    = [m_pause_job].
Proof.
  destruct (suspend_print_job_dispatch (models := plain_models)
              (world printing octoprint_operational) "cam-octo" CANCEL_PRINT
              octoprint_operational [GetJob] _
              (octo_camera_construction printing octoprint_operational) eq_refl)
    as (_ & Hidle & _).
  destruct (Hidle eq_refl) as [Hresult Hnone].
  destruct (suspend_print_job_dispatch (models := plain_models)
              (world printing octoprint) "cam-prusa" PAUSE_PRINT
              _ [GetStatus; GetJob] _
              (prusa_camera_construction printing octoprint) eq_refl)
    as (_ & _ & Hprinting).
  destruct (Hprinting eq_refl) as [Hpause _].
  split; [exact Hresult|]. split; [exact Hnone | exact Hpause].
Defined.

Lemma polling_loop_cycles_witness :
  exists t,
    PrinterUtils.poll_printer_state_func 10 three_ticks 2 0 = (t, Some (Return tt)) /\
    count is_poll t = 3%nat /\
    count is_sleep t = 3%nat /\
    count is_push t = 2%nat.
Proof.
  destruct (polling_loop_cycles three_ticks 2 3 10) as (t & Hrun & Hpoll & Hsleep & Hpush & _).
  - intros i Hi. destruct i as [|[|[|i]]]; try reflexivity. lia.
  - reflexivity.
  - lia.
  - exists t. repeat split; assumption.
Defined.

End Samples.

(** * Further properties of the two modules *)

(** Case analysis on every scrutinee of the goal, outermost first. *)
Ltac split_run :=
  repeat match goal with
         | |- context [match ?x with _ => _ end] =>
             lazymatch x with
             | context [match _ with _ => _ end] => fail
             | _ => destruct x eqn:?
             end
         end.

Ltac unfold_run :=
  unfold send, raise_for_status, bind, lift, ret, raise, emit, events, outcome in *.

Section DictLaws.
Context {A : Type}.

Lemma dict_get_set_same (k : string) (v : A) (d : dict A) :
  dict_get k (dict_set k v d) = Some v.
Proof.
  induction d as [|[k' v'] d IH]; simpl.
  - now rewrite String.eqb_refl.
  - destruct (String.eqb k k') eqn:Hk; simpl; rewrite Hk; [reflexivity | exact IH].
Qed.

Lemma dict_get_set_other (k k0 : string) (v : A) (d : dict A) :
  k0 <> k -> dict_get k0 (dict_set k v d) = dict_get k0 d.
Proof.
  intros Hne. induction d as [|[k' v'] d IH]; simpl.
  - destruct (String.eqb_spec k0 k); [contradiction | reflexivity].
  - destruct (String.eqb_spec k k') as [->|Hk]; simpl.
    + destruct (String.eqb_spec k0 k'); [contradiction | reflexivity].
    + now rewrite IH.
Qed.

Lemma in_dict_set (k : string) (v : A) (d : dict A) (entry : string * A) :
  In entry (dict_set k v d) -> entry = (k, v) \/ In entry d.
Proof.
  induction d as [|[k' v'] d IH]; simpl.
  - intros [<-|[]]. now left.
  - destruct (String.eqb_spec k k') as [->|Hk]; simpl.
    + intros [<-|Hin]; auto.
    + intros [<-|Hin]; auto. destruct (IH Hin); auto.
Qed.

Lemma in_keys_dict_set (k k0 : string) (v : A) (d : dict A) :
  In k0 (keys (dict_set k v d)) -> k0 = k \/ In k0 (keys d).
Proof.
  unfold keys. intros Hin. apply in_map_iff in Hin as ([k1 v1] & <- & Hin).
  destruct (in_dict_set k v d _ Hin) as [Heq|Hold].
  - left. now injection Heq.
  - right. apply in_map_iff. now exists (k1, v1).
Qed.

Lemma nodup_keys_dict_set (k : string) (v : A) (d : dict A) :
  NoDup (keys d) -> NoDup (keys (dict_set k v d)).
Proof.
  induction d as [|[k' v'] d IH]; simpl; intros Hnd.
  - repeat constructor. intros [].
  - inversion Hnd as [|? ? Hfresh Hnd']; subst.
    destruct (String.eqb_spec k k') as [->|Hk]; simpl.
    + now constructor.
    + constructor; [|now apply IH].
      intros Hin. destruct (in_keys_dict_set _ _ _ _ Hin) as [->|Hold];
        [now apply Hk | now apply Hfresh].
Qed.

End DictLaws.

Section PrusaLinkMore.
Context {models : Models} {files : FileModels} {arith : Arithmetic}.
Import PrusaLinkPyClient.

(** X1: a cancel or pause command is one call of the library.  The command
    fails with the transport error of that call; with [AttributeError] when
    the library gives [None] instead of a response; with [HTTPError] when the
    status is in 400..599; and succeeds silently on every other status; the
    204 shortcut of the code changes nothing to this. *)
Theorem commands_succeed_unless_error_status (self : PrusaLinkPy) :
  cancel_job self =
    ([StopPrint],
     match stop_print self with
     | Raise e => Raise e
     | Return None => Raise (AttributeError "status_code")
     | Return (Some resp) =>
         if error_status (status_code resp)
         then Raise (HTTPError (status_code resp)) else Return tt
     end) /\
  pause_job self =
    ([PausePrint],
     match pause_print self with
     | Raise e => Raise e
     | Return None => Raise (AttributeError "status_code")
     | Return (Some resp) =>
         if error_status (status_code resp)
         then Raise (HTTPError (status_code resp)) else Return tt
     end).
Proof.
  assert (H204 : forall sc, (sc =? 204) = true -> error_status sc = false).
  { intros sc Hsc. apply Z.eqb_eq in Hsc. now subst. }
  unfold cancel_job, pause_job, send_command, status_code_of, raise_for_status_of,
    error_status in *.
  unfold_run. split.
  - destruct (stop_print self) as [[resp|]|e]; try reflexivity.
    destruct (status_code resp =? 204) eqn:Hsc.
    + now rewrite (H204 _ Hsc).
    + now destruct (_ && _).
  - destruct (pause_print self) as [[resp|]|e]; try reflexivity.
    destruct (status_code resp =? 204) eqn:Hsc.
    + now rewrite (H204 _ Hsc).
    + now destruct (_ && _).
Qed.

(** X2: [get_job_info] stops at the first transport failure.  When the
    status query fails (library error or status in 400..599) the job endpoint
    is never queried; when the job query fails the same way, its error is
    raised after exactly the two requests. *)
Theorem get_job_info_transport_errors (self : PrusaLinkPy) :
  (forall e, get_status self = Raise e ->
             get_job_info self = ([GetStatus], Raise e)) /\
  (forall resp,
      get_status self = Return resp ->
      error_status (status_code resp) = true ->
      get_job_info self = ([GetStatus], Raise (HTTPError (status_code resp)))) /\
  (forall resp status_data,
      get_status self = Return resp ->
      error_status (status_code resp) = false ->
      json resp = Return status_data ->
      (forall e, get_job self = Raise e ->
                 get_job_info self = ([GetStatus; GetJob], Raise e)) /\
      (forall resp2,
          get_job self = Return resp2 ->
          error_status (status_code resp2) = true ->
          get_job_info self =
            ([GetStatus; GetJob], Raise (HTTPError (status_code resp2))))).
Proof.
  unfold get_job_info. split; [|split].
  - intros e ->. reflexivity.
  - intros resp -> Herr. rewrite send_reply, bind_return.
    now rewrite (raise_for_status_error _ Herr).
  - intros resp status_data -> Hok Hjson. rewrite send_reply, bind_return.
    rewrite (raise_for_status_pass _ Hok), bind_ret, Hjson, bind_lift_return.
    split.
    + intros e ->. reflexivity.
    + intros resp2 -> Herr. rewrite send_reply, bind_return.
      now rewrite (raise_for_status_error _ Herr).
Qed.

(** X3: what [get_job_info] raises when the printer has no active job.
    With a successful status response that carries no "job" key it raises
    [KeyError]; with ["job": null] it raises [AttributeError]; and a job
    response without JSON body makes it raise the decoding error.  In none of
    these cases is a [JobInfoResponse] built. *)
Theorem get_job_info_without_active_job
    (self : PrusaLinkPy) (resp1 resp2 : Response) (status_data : dict pyval) :
  get_status self = Return resp1 ->
  error_status (status_code resp1) = false ->
  json resp1 = Return (PyDict status_data) ->
  get_job self = Return resp2 ->
  error_status (status_code resp2) = false ->
  (forall e, json resp2 = Raise e ->
             get_job_info self = ([GetStatus; GetJob], Raise e)) /\
  (forall job_data,
      json resp2 = Return job_data ->
      (dict_get "job" status_data = None ->
       get_job_info self = ([GetStatus; GetJob], Raise (KeyError "job"))) /\
      (dict_get "job" status_data = Some PyNone ->
       get_job_info self = ([GetStatus; GetJob], Raise (AttributeError "get")))).
Proof.
  intros Hstatus Hok1 Hjson1 Hjob Hok2. unfold get_job_info.
  rewrite Hstatus, send_reply, bind_return.
  rewrite (raise_for_status_pass _ Hok1), bind_ret, Hjson1, bind_lift_return.
  rewrite Hjob, send_reply, bind_return.
  rewrite (raise_for_status_pass _ Hok2), bind_ret.
  split.
  - intros e ->. reflexivity.
  - intros job_data ->. rewrite bind_lift_return. unfold getitem. split.
    + intros ->. reflexivity.
    + intros ->. rewrite bind_lift_return.
      destruct (get job_data "job" (PyDict [])) as [job_details|e] eqn:Hget.
      * reflexivity.
      * unfold get in Hget. destruct job_data; try (injection Hget as <-; reflexivity).
        now destruct (dict_get "job" d).
Qed.


(** X4: [get_job_info] sends the status query, then at most the job query,
    and nothing else: never a temperature query, never a command. *)
Theorem get_job_info_requests (self : PrusaLinkPy) :
  events (get_job_info self) = [GetStatus] \/
  events (get_job_info self) = [GetStatus; GetJob].
Proof.
  unfold get_job_info, send.
  destruct (get_status self) as [resp1|e1]; [|now left].
  unfold_run. split_run; simpl; auto.
Qed.

Lemma collect_readings_silent (its : dict pyval) :
  forall readings, events (collect_readings its readings) = [].
Proof.
  induction its as [|[key value] rest IH]; intros readings; [reflexivity|].
  destruct value as [| | | | | |d]; cbn [collect_readings]; try apply IH.
  destruct (dict_mem "actual" d); [|apply IH].
  destruct (TemperatureReading_init d) as [r|e]; [|reflexivity].
  rewrite bind_lift_return. apply IH.
Qed.

Lemma temperatures_events (self : PrusaLinkPy) :
  events (get_printer_temperatures self) = [GetPrinter].
Proof.
  unfold get_printer_temperatures.
  destruct (get_printer self) as [resp|e]; [|reflexivity].
  rewrite send_reply, bind_return. unfold events at 1. cbn [fst].
  match goal with |- _ ++ ?t = _ => enough (Hsilent : t = []) by now rewrite Hsilent end.
  destruct (status_code resp =? 409); [reflexivity|].
  unfold raise_for_status.
  destruct (_ && _); [reflexivity|]. rewrite bind_ret.
  destruct (json resp) as [data|e]; [|reflexivity]. rewrite bind_lift_return.
  destruct (get data "temperature" (PyDict [])) as [temp_data|e]; [|reflexivity].
  rewrite bind_lift_return.
  destruct (negb (truthy temp_data)); [reflexivity|].
  destruct (items temp_data) as [its|e]; [|reflexivity].
  rewrite bind_lift_return. now rewrite collect_readings_silent.
Qed.

(** X5: [get_printer_temperatures] sends exactly one request, the printer
    query, whatever the answer. *)
Theorem get_printer_temperatures_one_request (self : PrusaLinkPy) :
  events (get_printer_temperatures self) = [GetPrinter].
Proof.
  unfold get_printer_temperatures.
  destruct (get_printer self) as [resp|e]; [|reflexivity].
  rewrite send_reply, bind_return. unfold events at 1. cbn [fst].
  match goal with |- _ ++ ?t = _ => enough (Hsilent : t = []) by now rewrite Hsilent end.
  destruct (status_code resp =? 409); [reflexivity|].
  unfold raise_for_status.
  destruct (_ && _); [reflexivity|]. rewrite bind_ret.
  destruct (json resp) as [data|e]; [|reflexivity]. rewrite bind_lift_return.
  destruct (get data "temperature" (PyDict [])) as [temp_data|e]; [|reflexivity].
  rewrite bind_lift_return.
  destruct (negb (truthy temp_data)); [reflexivity|].
  destruct (items temp_data) as [its|e]; [|reflexivity].
  rewrite bind_lift_return. apply collect_readings_silent.
Qed.

(** X6: a successful response without temperature data gives the empty
    mapping ("temperature" missing, null or empty), and one whose
    "temperature" is a non-empty value that is no object makes the call raise
    [AttributeError]. *)
Theorem get_printer_temperatures_without_data
    (self : PrusaLinkPy) (resp : Response) (data : dict pyval) :
  get_printer self = Return resp ->
  status_code resp <> 409 ->
  error_status (status_code resp) = false ->
  json resp = Return (PyDict data) ->
  (dict_get "temperature" data = None ->
   get_printer_temperatures self = ([GetPrinter], Return [])) /\
  (forall v,
      dict_get "temperature" data = Some v ->
      (truthy v = false ->
       get_printer_temperatures self = ([GetPrinter], Return [])) /\
      (truthy v = true -> (forall d, v <> PyDict d) ->
       get_printer_temperatures self = ([GetPrinter], Raise (AttributeError "items")))).
Proof.
  intros Hreply Hbusy Hok Hjson. unfold get_printer_temperatures.
  rewrite Hreply, send_reply, bind_return.
  apply Z.eqb_neq in Hbusy. rewrite Hbusy.
  rewrite (raise_for_status_pass _ Hok), bind_ret, Hjson, bind_lift_return.
  unfold get. split.
  - intros ->. reflexivity.
  - intros v ->. rewrite bind_lift_return. split.
    + intros ->. reflexivity.
    + intros -> Hshape. simpl negb. cbv iota.
      destruct v as [| | | | | |d]; try reflexivity.
      now destruct (Hshape d).
Qed.

Lemma collect_readings_keys (its : dict pyval) :
  forall readings t result,
  collect_readings its readings = (t, Return result) ->
  NoDup (keys readings) -> NoDup (keys result).
Proof.
  induction its as [|[key value] rest IH]; intros readings t result.
  - intros [= _ <-]. auto.
  - destruct value as [| | | | | |d]; cbn [collect_readings]; try apply IH.
    destruct (dict_mem "actual" d); [|apply IH].
    destruct (TemperatureReading_init d) as [r|e]; [|discriminate].
    rewrite bind_lift_return. intros Hrun Hnd.
    apply (IH _ _ _ Hrun). now apply nodup_keys_dict_set.
Qed.

Lemma collect_readings_origin (its : dict pyval) :
  forall readings t result,
  collect_readings its readings = (t, Return result) ->
  forall k r, In (k, r) result ->
  In (k, r) readings \/
  exists d, In (k, PyDict d) its /\ dict_mem "actual" d = true /\
            TemperatureReading_init d = Return r.
Proof.
  induction its as [|[key value] rest IH]; intros readings t result.
  - intros [= _ <-]. auto.
  - assert (Hskip : collect_readings rest readings = (t, Return result) ->
              forall k r, In (k, r) result ->
              In (k, r) readings \/
              exists d, In (k, PyDict d) ((key, value) :: rest) /\
                        dict_mem "actual" d = true /\
                        TemperatureReading_init d = Return r).
    { intros Hrun k r Hin. destruct (IH _ _ _ Hrun k r Hin) as [|(d & ? & ? & ?)];
        [now left | right; exists d; simpl; auto]. }
    destruct value as [| | | | | |d]; cbn [collect_readings]; try exact Hskip.
    destruct (dict_mem "actual" d) eqn:Hact; [|exact Hskip].
    destruct (TemperatureReading_init d) as [r0|e] eqn:Hinit; [|discriminate].
    rewrite bind_lift_return. intros Hrun k r Hin.
    destruct (IH _ _ _ Hrun k r Hin) as [Hset|(d' & ? & ? & ?)].
    + destruct (in_dict_set _ _ _ _ Hset) as [[= -> ->]|Hold]; [|now left].
      right. exists d. simpl. auto.
    + right. exists d'. simpl. auto.
Qed.

(** X7: whatever [get_printer_temperatures] returns, its keys are distinct
    and each reading was built by the [TemperatureReading] model from an entry
    of the payload's "temperature" object that is a dict with an 'actual' key,
    under that entry's name.  Nothing is assumed on payload or model. *)
Theorem get_printer_temperatures_readings_sound
    (self : PrusaLinkPy) (t : list request) (readings : dict TemperatureReading) :
  get_printer_temperatures self = (t, Return readings) ->
  NoDup (keys readings) /\
  (forall k r,
      In (k, r) readings ->
      exists resp data temp_data d,
        get_printer self = Return resp /\
        json resp = Return data /\
        get data "temperature" (PyDict []) = Return (PyDict temp_data) /\
        In (k, PyDict d) temp_data /\
        dict_mem "actual" d = true /\
        TemperatureReading_init d = Return r).
Proof.
  unfold get_printer_temperatures.
  destruct (get_printer self) as [resp|e] eqn:Hreply; [|discriminate].
  rewrite send_reply, bind_return. unfold events, outcome.
  destruct (status_code resp =? 409).
  { intros [= _ <-]. split; [constructor | intros k r []]. }
  unfold raise_for_status. destruct (_ && _); [discriminate|]. rewrite bind_ret.
  destruct (json resp) as [data|e] eqn:Hjson; [|discriminate].
  rewrite bind_lift_return.
  destruct (get data "temperature" (PyDict [])) as [temp_data|e] eqn:Htemp;
    [|discriminate].
  rewrite bind_lift_return.
  destruct (negb (truthy temp_data)).
  { intros [= _ <-]. split; [constructor | intros k r []]. }
  destruct temp_data as [| | | | | |its]; try discriminate.
  unfold items. rewrite bind_lift_return.
  destruct (collect_readings its []) as [t' [result|e]] eqn:Hrun; [|discriminate].
  intros [= _ <-]. split.
  - apply (collect_readings_keys _ _ _ _ Hrun). constructor.
  - intros k r Hin.
    destruct (collect_readings_origin _ _ _ _ Hrun k r Hin) as [[]|(d & ? & ? & ?)].
    exists resp, data, its, d. repeat split; assumption.
Qed.

Lemma collect_readings_refusal (its : dict pyval) :
  forall readings k d e,
  In (k, PyDict d) its ->
  dict_mem "actual" d = true ->
  TemperatureReading_init d = Raise e ->
  exists e', collect_readings its readings = ([], Raise e').
Proof.
  induction its as [|[key value] rest IH]; intros readings k d e Hin Hact Hinit;
    [destruct Hin|].
  destruct Hin as [[= -> ->]|Hin].
  - cbn [collect_readings]. rewrite Hact, Hinit. now exists e.
  - destruct value as [| | | | | |d0]; cbn [collect_readings];
      try (apply (IH _ k d e); assumption).
    destruct (dict_mem "actual" d0); [|apply (IH _ k d e); assumption].
    destruct (TemperatureReading_init d0) as [r0|e0]; [|now exists e0].
    rewrite bind_lift_return. apply (IH _ k d e); assumption.
Qed.

(** X8: one temperature entry that has an 'actual' key and that the
    [TemperatureReading] model refuses makes the whole call raise: no partial
    mapping is returned. *)
Theorem get_printer_temperatures_refused_entry
    (self : PrusaLinkPy) (resp : Response) (data : pyval)
    (temp_data : dict pyval) (k : string) (d : dict pyval) (e : exn) :
  get_printer self = Return resp ->
  status_code resp <> 409 ->
  error_status (status_code resp) = false ->
  json resp = Return data ->
  get data "temperature" (PyDict []) = Return (PyDict temp_data) ->
  In (k, PyDict d) temp_data ->
  dict_mem "actual" d = true ->
  TemperatureReading_init d = Raise e ->
  exists e', get_printer_temperatures self = ([GetPrinter], Raise e').
Proof.
  intros Hreply Hbusy Hok Hjson Htemp Hin Hact Hinit.
  unfold get_printer_temperatures.
  rewrite Hreply, send_reply, bind_return.
  apply Z.eqb_neq in Hbusy. rewrite Hbusy.
  rewrite (raise_for_status_pass _ Hok), bind_ret, Hjson, bind_lift_return.
  rewrite Htemp, bind_lift_return.
  destruct temp_data as [|entry rest] eqn:Htd; [destruct Hin|].
  rewrite <- Htd in *. replace (truthy (PyDict temp_data)) with true
    by (rewrite Htd; reflexivity).
  simpl negb. cbv iota. unfold items. rewrite bind_lift_return.
  destruct (collect_readings_refusal temp_data [] k d e Hin Hact Hinit) as [e' ->].
  now exists e'.
Qed.

Lemma temperatures_run (self : PrusaLinkPy) :
  get_printer_temperatures self
    = ([GetPrinter], outcome (get_printer_temperatures self)).
Proof.
  rewrite <- (temperatures_events self). now destruct (get_printer_temperatures self).
Qed.

(** X9: [nozzle_and_bed_temps] sends the one printer query, raises exactly
    what [get_printer_temperatures] raises, and whenever it returns, the
    mapping has the four keys nozzle_actual, nozzle_target, bed_actual and
    bed_target, in this order and no other. *)
Theorem nozzle_and_bed_temps_shape (self : PrusaLinkPy) :
  events (nozzle_and_bed_temps self) = [GetPrinter] /\
  (forall e, outcome (nozzle_and_bed_temps self) = Raise e <->
             outcome (get_printer_temperatures self) = Raise e) /\
  (forall d, outcome (nozzle_and_bed_temps self) = Return d ->
             keys d = ["nozzle_actual"; "nozzle_target"; "bed_actual"; "bed_target"]).
Proof.
  unfold nozzle_and_bed_temps. rewrite (temperatures_run self).
  destruct (outcome (get_printer_temperatures self)) as [temps|e0].
  - rewrite bind_return. destruct temps as [|entry rest]; simpl;
      (split; [reflexivity|]); (split; [intros e; split; discriminate|]);
      intros d [= <-]; reflexivity.
  - simpl. split; [reflexivity|]. split.
    + intros e. split; intros [= ->]; reflexivity.
    + discriminate.
Qed.

(** X10: a busy printer (409 on the temperature query) does not stop
    [get_printer_state]: the job info is still fetched and the state is
    returned with the four temperatures absent. *)
Theorem get_printer_state_busy_printer (self : PrusaLinkPy) (resp : Response) :
  get_printer self = Return resp ->
  status_code resp = 409 ->
  get_printer_state self =
    (GetPrinter :: events (get_job_info self),
     Return (mkPrinterState
               (match outcome (get_job_info self) with
                | Return ji => Some ji
                | Raise _ => None
                end)
               (mkPrinterTemperatures PyNone PyNone PyNone PyNone))).
Proof.
  intros Hreply Hbusy.
  apply (get_printer_state_after_temperatures self [GetPrinter] []).
  unfold get_printer_temperatures. rewrite Hreply, send_reply, bind_return.
  now rewrite Hbusy.
Qed.




(** X13: [percent_complete] asks for the job info and nothing more, raises
    what [get_job_info] raises, returns 0.0 when the job info has no
    completion value, and otherwise the product of that value and 100. *)
Theorem percent_complete_of_job_info (self : PrusaLinkPy) :
  events (percent_complete self) = events (get_job_info self) /\
  (forall e, outcome (get_job_info self) = Raise e ->
             outcome (percent_complete self) = Raise e) /\
  (forall ji, outcome (get_job_info self) = Return ji ->
              completion (progress ji) = PyNone ->
              outcome (percent_complete self) = Return (PyFloat 0)) /\
  (forall ji, outcome (get_job_info self) = Return ji ->
              completion (progress ji) <> PyNone ->
              outcome (percent_complete self)
                = mul (completion (progress ji)) (PyInt 100)).
Proof.
  unfold percent_complete.
  destruct (get_job_info self) as [t [ji|e]]; simpl.
  - destruct (completion (progress ji)) eqn:Hc; simpl; rewrite ?app_nil_r;
      (split; [reflexivity|]); (split; [discriminate|]);
      (split; intros ji' [= <-] Hc'; rewrite ?Hc in *; try discriminate;
       try contradiction; reflexivity).
  - split; [reflexivity|]. split; [now intros e' [= ->]|].
    split; discriminate.
Qed.

(** X14: [current_file] asks for the job info and nothing more and raises
    what [get_job_info] raises.  With a job that names no file it builds
    [FileInfo] from no argument at all; with a file object, from that
    object's fields; with a "file" that is no object (null, say) it raises
    [TypeError]; and with job metadata that is no object, [AttributeError]. *)
Theorem current_file_of_job_info (self : PrusaLinkPy) :
  events (current_file self) = events (get_job_info self) /\
  (forall e, outcome (get_job_info self) = Raise e ->
             outcome (current_file self) = Raise e) /\
  (forall ji,
      outcome (get_job_info self) = Return ji ->
      (forall j, job ji = PyDict j ->
         (dict_get "file" j = None ->
          outcome (current_file self) = FileInfo_init []) /\
         (forall kw, dict_get "file" j = Some (PyDict kw) ->
                     outcome (current_file self) = FileInfo_init kw) /\
         (forall v, dict_get "file" j = Some v -> (forall kw, v <> PyDict kw) ->
                    outcome (current_file self) = Raise TypeError)) /\
      ((forall j, job ji <> PyDict j) ->
       outcome (current_file self) = Raise (AttributeError "get"))).
Proof.
  unfold current_file.
  destruct (get_job_info self) as [t [ji|e]]; simpl.
  - split.
    + destruct (get (job ji) "file" (PyDict [])) as [v|e]; simpl; [|now rewrite app_nil_r].
      destruct v; simpl; now rewrite app_nil_r.
    + split; [discriminate|]. intros ji' [= <-]. split.
      * intros j ->. simpl. split; [|split].
        -- intros ->. simpl. now destruct (FileInfo_init []).
        -- intros kw ->. simpl. now destruct (FileInfo_init kw).
        -- intros v -> Hshape. simpl.
           destruct v; try reflexivity. now destruct (Hshape d).
      * intros Hshape. destruct (job ji); try reflexivity. now destruct (Hshape d).
  - split; [reflexivity|]. split; [now intros e' [= ->]|]. discriminate.
Qed.

End PrusaLinkMore.

Section PrinterUtilsMore.
Context {models : Models}.
Import PrinterUtils.

(** X15: [get_printer_config] and [get_printer_id] have no effect of their
    own, raise only what the camera-state store raises, and return either
    [None] or a truthy value: a configuration or an id that is empty is
    reported as [None]. *)
Theorem printer_lookups_none_or_truthy (w : World) (camera_uuid : string) :
  events (get_printer_config w camera_uuid) = [] /\
  events (get_printer_id w camera_uuid) = [] /\
  (forall e, outcome (get_printer_config w camera_uuid) = Raise e <->
             get_camera_state_sync w camera_uuid = Raise e) /\
  (forall e, outcome (get_printer_id w camera_uuid) = Raise e <->
             get_camera_state_sync w camera_uuid = Raise e) /\
  (forall v, outcome (get_printer_config w camera_uuid) = Return v ->
             v = PyNone \/ truthy v = true) /\
  (forall v, outcome (get_printer_id w camera_uuid) = Return v ->
             v = PyNone \/ truthy v = true).
Proof.
  unfold get_printer_config, get_printer_id.
  destruct (get_camera_state_sync w camera_uuid) as [[attrs|]|e0].
  - rewrite !bind_lift_return.
    destruct (dict_get "printer_config" attrs) as [cfg|];
      destruct (dict_get "printer_id" attrs) as [pid|];
      try destruct (truthy cfg) eqn:Hcfg; try destruct (truthy pid) eqn:Hpid;
      repeat split; try discriminate; intros v [= <-]; auto.
  - rewrite !bind_lift_return.
    repeat split; try discriminate; intros v [= <-]; auto.
  - simpl. repeat split; try discriminate; intros [= ->]; reflexivity.
Qed.

Lemma merge_printer (printer_id printer_config : pyval) (attrs : dict pyval) :
  CameraUtils.merge [("printer_id", printer_id); ("printer_config", printer_config)] attrs
    = dict_set "printer_config" printer_config (dict_set "printer_id" printer_id attrs).
Proof. reflexivity. Qed.

Lemma lookups_in_store (w : World) (st : CameraUtils.CameraStore)
    (camera_uuid : string) :
  get_printer_config (with_store w st) camera_uuid =
    ([], Return match dict_get camera_uuid st with
                | Some attrs =>
                    match dict_get "printer_config" attrs with
                    | Some v => if truthy v then v else PyNone
                    | None => PyNone
                    end
                | None => PyNone
                end) /\
  get_printer_id (with_store w st) camera_uuid =
    ([], Return match dict_get camera_uuid st with
                | Some attrs =>
                    match dict_get "printer_id" attrs with
                    | Some v => if truthy v then v else PyNone
                    | None => PyNone
                    end
                | None => PyNone
                end).
Proof.
  unfold get_printer_config, get_printer_id, with_store,
    CameraUtils.get_camera_state_sync. cbn [get_camera_state_sync].
  rewrite !bind_lift_return.
  destruct (dict_get camera_uuid st) as [attrs|]; [|split; reflexivity].
  destruct (dict_get "printer_config" attrs) as [cfg|];
    destruct (dict_get "printer_id" attrs) as [pid|];
    try destruct (truthy cfg); try destruct (truthy pid); split; reflexivity.
Qed.

(** X16: what [set_printer] writes is what the two lookups read.  After
    [set_printer] on a known camera, [get_printer_config] gives the
    configuration and [get_printer_id] the id just set (or [None] for an empty
    one), the camera's other attributes are as before, and the lookups on every
    other camera are unchanged. *)
Theorem set_printer_read_back (w : World) (st : CameraUtils.CameraStore)
    (camera_uuid : string) (attrs : dict pyval) (printer_id printer_config : pyval) :
  CameraUtils.get_camera_state_sync st camera_uuid = Some attrs ->
  get_printer_config
      (with_store w (fst (set_printer st camera_uuid printer_id printer_config)))
      camera_uuid
    = ([], Return (if truthy printer_config then printer_config else PyNone)) /\
  get_printer_id
      (with_store w (fst (set_printer st camera_uuid printer_id printer_config)))
      camera_uuid
    = ([], Return (if truthy printer_id then printer_id else PyNone)) /\
  (forall updated k,
      snd (set_printer st camera_uuid printer_id printer_config) = Some updated ->
      k <> "printer_id" -> k <> "printer_config" ->
      dict_get k updated = dict_get k attrs) /\
  (forall other,
      other <> camera_uuid ->
      get_printer_config
          (with_store w (fst (set_printer st camera_uuid printer_id printer_config)))
          other
        = get_printer_config (with_store w st) other /\
      get_printer_id
          (with_store w (fst (set_printer st camera_uuid printer_id printer_config)))
          other
        = get_printer_id (with_store w st) other).
Proof.
  unfold CameraUtils.get_camera_state_sync. intros Hknown.
  unfold set_printer, CameraUtils.update_camera_state. rewrite Hknown.
  cbn [fst snd]. rewrite merge_printer.
  split; [|split; [|split]].
  - rewrite (proj1 (lookups_in_store w _ camera_uuid)).
    now rewrite dict_get_set_same, dict_get_set_same.
  - rewrite (proj2 (lookups_in_store w _ camera_uuid)).
    rewrite dict_get_set_same, dict_get_set_other by discriminate.
    now rewrite dict_get_set_same.
  - intros updated k [= <-] Hid Hcfg.
    now rewrite !dict_get_set_other by assumption.
  - intros other Hother.
    rewrite (proj1 (lookups_in_store w _ other)), (proj2 (lookups_in_store w _ other)).
    rewrite (proj1 (lookups_in_store w st other)), (proj2 (lookups_in_store w st other)).
    now rewrite dict_get_set_other by assumption.
Qed.

(** X17: after [remove_printer] on a known camera the camera has no printer
    any more: both lookups give [None], [start_printer_state_polling] logs a
    warning and creates no task, and [suspend_print_job] logs an error and
    returns [False] without reaching any printer. *)
Theorem remove_printer_clears (w : World) (st : CameraUtils.CameraStore)
    (camera_uuid : string) (attrs : dict pyval) (action : AlertAction) :
  CameraUtils.get_camera_state_sync st camera_uuid = Some attrs ->
  get_printer_config (with_store w (fst (remove_printer st camera_uuid))) camera_uuid
    = ([], Return PyNone) /\
  get_printer_id (with_store w (fst (remove_printer st camera_uuid))) camera_uuid
    = ([], Return PyNone) /\
  start_printer_state_polling
      (with_store w (fst (remove_printer st camera_uuid))) camera_uuid
    = ([Log WARNING "No printer configuration found for camera UUID %s"], Return tt) /\
  suspend_print_job
      (with_store w (fst (remove_printer st camera_uuid))) camera_uuid action
    = ([Log ERROR "No printer configuration found for camera UUID %s"], Return false).
Proof.
  unfold CameraUtils.get_camera_state_sync. intros Hknown.
  assert (Hcfg : get_printer_config
                   (with_store w (fst (remove_printer st camera_uuid))) camera_uuid
                 = ([], Return PyNone)).
  { unfold remove_printer, CameraUtils.update_camera_state. rewrite Hknown.
    cbn [fst]. rewrite merge_printer, (proj1 (lookups_in_store w _ camera_uuid)).
    now rewrite dict_get_set_same, dict_get_set_same. }
  split; [exact Hcfg|]. split; [|split].
  - unfold remove_printer, CameraUtils.update_camera_state. rewrite Hknown.
    cbn [fst]. rewrite merge_printer, (proj2 (lookups_in_store w _ camera_uuid)).
    rewrite dict_get_set_same, dict_get_set_other by discriminate.
    now rewrite dict_get_set_same.
  - unfold start_printer_state_polling. now rewrite Hcfg, bind_pure.
  - unfold suspend_print_job. now rewrite Hcfg, bind_pure.
Qed.

(** X18: once the camera's configuration resolves to a client class (the
    set-up that [suspend_print_job] shares), [start_printer_state_polling]
    with an integer polling rate [z], the stored one or the default when the
    config store has none, goes as follows.  If [z / 1000] fits a float: when
    the client class raises, its exception leaves the function and no task
    exists; otherwise one task is created with interval [z / 1000] and handed
    to the registry under the camera's UUID, and the function returns, or
    raises what the registry raises, the task then being left unregistered.
    If [z / 1000] does not fit a float, [OverflowError] is raised before the
    client is built and no task exists. *)
Theorem start_polling_creates_registered_task
    (w : World) (camera_uuid : string) (config : dict pyval) (z : Z)
    (built : result Client) :
  construction w camera_uuid built ->
  get_config w = Return (PyDict config) ->
  match dict_get SavedConfig_PRINTER_STAT_POLLING_RATE_MS config with
  | Some rate_ms => rate_ms
  | None => PRINTER_STAT_POLLING_RATE_MS w
  end = PyInt z ->
  (Z.abs z < true_div_1000_limit ->
   start_printer_state_polling w camera_uuid =
     match built with
     | Raise e => ([], Raise e)
     | Return _ =>
         match add_polling_task w camera_uuid with
         | Return _ =>
             ([CreateTask (inject_Z z / 1000); AddPollingTask camera_uuid;
               Log DEBUG "Started printer state polling for camera index %d using {client_class.__name__}"],
              Return tt)
         | Raise e =>
             ([CreateTask (inject_Z z / 1000); AddPollingTask camera_uuid], Raise e)
         end
     end) /\
  (true_div_1000_limit <= Z.abs z ->
   start_printer_state_polling w camera_uuid = ([], Raise OverflowError)).
Proof.
  intros (cfg & t & cls & Hcfg & Htruthy & Htype & Hcls
          & base_url & api_key & Hurl & Hkey & Hbuilt) Hconfig Hrate_ms.
  assert (Hget : get (PyDict config) SavedConfig_PRINTER_STAT_POLLING_RATE_MS
                   (PRINTER_STAT_POLLING_RATE_MS w) = Return (PyInt z)).
  { unfold get. rewrite <- Hrate_ms. now destruct (dict_get _ config). }
  split.
  - intros Hfits.
    assert (Hrate : rate_of (PyInt z) = Return (inject_Z z / 1000)%Q).
    { unfold rate_of. now rewrite (proj2 (Z.ltb_lt _ _) Hfits). }
    rewrite (start_polling_after_rate w camera_uuid cfg (PyDict config) _ _
               Hcfg Htruthy Hconfig Hget Hrate (Return t) Htype).
    rewrite Hcls, Hurl, bind_lift_return, Hkey, bind_lift_return, Hbuilt.
    destruct built as [client|e]; [|reflexivity].
    rewrite bind_lift_return.
    destruct (add_polling_task w camera_uuid) as [[]|e]; reflexivity.
  - intros Hlarge. unfold start_printer_state_polling.
    rewrite Hcfg, bind_pure, Htruthy. simpl negb. cbv iota.
    rewrite Hconfig, bind_lift_return, Hget, bind_lift_return.
    unfold rate_of. now rewrite (proj2 (Z.ltb_ge _ _) Hlarge).
Qed.

(** X19: a polling rate that is no number stops [start_printer_state_polling]
    with [TypeError] before the printer type is looked at, and so does a
    failure of the config store with its own exception; in both cases nothing
    is logged and no task is created. *)
Theorem start_polling_rate_errors (w : World) (camera_uuid : string) (cfg : pyval) :
  get_printer_config w camera_uuid = ([], Return cfg) ->
  truthy cfg = true ->
  (forall e, get_config w = Raise e ->
             start_printer_state_polling w camera_uuid = ([], Raise e)) /\
  (forall config rate_ms,
      get_config w = Return (PyDict config) ->
      match dict_get SavedConfig_PRINTER_STAT_POLLING_RATE_MS config with
      | Some v => v
      | None => PRINTER_STAT_POLLING_RATE_MS w
      end = rate_ms ->
      (forall z, rate_ms <> PyInt z) ->
      (forall q, rate_ms <> PyFloat q) ->
      (forall b, rate_ms <> PyBool b) ->
      start_printer_state_polling w camera_uuid = ([], Raise TypeError)).
Proof.
  intros Hcfg Htruthy. unfold start_printer_state_polling.
  rewrite Hcfg, bind_pure, Htruthy. simpl negb. cbv iota. split.
  - intros e ->. reflexivity.
  - intros config rate_ms -> Hrate Hint Hfloat Hbool. rewrite bind_lift_return.
    assert (Hget : get (PyDict config) SavedConfig_PRINTER_STAT_POLLING_RATE_MS
                     (PRINTER_STAT_POLLING_RATE_MS w) = Return rate_ms).
    { unfold get. rewrite <- Hrate. now destruct (dict_get _ config). }
    rewrite Hget, bind_lift_return.
    destruct rate_ms; try reflexivity;
      [now destruct (Hbool b) | now destruct (Hint z) | now destruct (Hfloat q)].
Qed.

Lemma commands_of_attempt (client : Client) (action : AlertAction) :
  commands (events (suspend_attempt client action)) = [] \/
  (action = CANCEL_PRINT /\
   commands (events (suspend_attempt client action)) = [m_cancel_job]) \/
  (action = PAUSE_PRINT /\
   commands (events (suspend_attempt client action)) = [m_pause_job]).
Proof.
  destruct (get_job_info client) as [tj [ji|e]] eqn:Hjob.
  - destruct (is_printing (state ji)) eqn:Hprinting.
    + destruct action as [| |name].
      * right. left. split; [reflexivity|].
        rewrite (suspend_attempt_command client CANCEL_PRINT tj ji m_cancel_job
                   (cancel_job client) _ Hjob Hprinting
                   (or_introl (conj eq_refl (conj eq_refl (conj eq_refl eq_refl))))).
        unfold events at 1. simpl.
        rewrite commands_app, commands_requests. simpl.
        rewrite commands_app, commands_requests.
        now destruct (returns (cancel_job client)).
      * right. right. split; [reflexivity|].
        rewrite (suspend_attempt_command client PAUSE_PRINT tj ji m_pause_job
                   (pause_job client) _ Hjob Hprinting
                   (or_intror (conj eq_refl (conj eq_refl (conj eq_refl eq_refl))))).
        unfold events at 1. simpl.
        rewrite commands_app, commands_requests. simpl.
        rewrite commands_app, commands_requests.
        now destruct (returns (pause_job client)).
      * left. rewrite (suspend_attempt_other_action client name tj ji Hjob Hprinting).
        unfold events. simpl. apply commands_requests.
    + left. rewrite (suspend_attempt_not_printing client action tj ji Hjob Hprinting).
      unfold events. simpl. now rewrite commands_app, commands_requests.
  - left. rewrite (suspend_attempt_fetch_raises client action tj e Hjob).
    unfold events. simpl. now rewrite commands_app, commands_requests.
Qed.

Lemma suspend_reaches_attempt (w : World) (camera_uuid : string)
    (action : AlertAction) :
  commands (events (suspend_print_job w camera_uuid action)) = [] \/
  exists client,
    suspend_print_job w camera_uuid action = suspend_attempt client action.
Proof.
  unfold suspend_print_job, get_printer_config, resolve_printer_type.
  unfold_run. split_run; simpl; try (left; reflexivity).
  all: right; eexists; symmetry; eassumption.
Qed.

(** X21: [suspend_print_job] never issues more than one command, and never
    one that was not asked for: on every camera and in every world it issues no
    command at all, or the single cancel that [CANCEL_PRINT] asks for, or the
    single pause that [PAUSE_PRINT] asks for. *)
Theorem suspend_print_job_at_most_one_command (w : World) (camera_uuid : string)
    (action : AlertAction) :
  commands (events (suspend_print_job w camera_uuid action)) = [] \/
  (action = CANCEL_PRINT /\
   commands (events (suspend_print_job w camera_uuid action)) = [m_cancel_job]) \/
  (action = PAUSE_PRINT /\
   commands (events (suspend_print_job w camera_uuid action)) = [m_pause_job]).
Proof.
  destruct (suspend_reaches_attempt w camera_uuid action) as [Hnone|[client ->]].
  - now left.
  - apply commands_of_attempt.
Qed.

(** X22: when the job-info fetch raises (as the PrusaLink client does for a
    printer without active job), [suspend_print_job] issues no command, logs
    the error and returns [False], whatever the action. *)
Theorem suspend_print_job_fetch_failure (w : World) (camera_uuid : string)
    (action : AlertAction) (client : Client) (tj : list request) (e : exn) :
  construction w camera_uuid (Return client) ->
  get_job_info client = (tj, Raise e) ->
  suspend_print_job w camera_uuid action =
    (Invoke m_get_job_info :: map Http tj ++
       [Log ERROR "Error suspending print job for printer on camera %s: %s"],
     Return false) /\
  commands (events (suspend_print_job w camera_uuid action)) = [].
Proof.
  intros Hbuilt Hjob.
  rewrite (suspend_print_job_after_setup w camera_uuid action _ Hbuilt).
  rewrite (suspend_attempt_fetch_raises client action tj e Hjob).
  split; [reflexivity|]. unfold events. simpl.
  now rewrite commands_app, commands_requests.
Qed.

Lemma requests_of_app (t1 t2 : trace) :
  requests_of (t1 ++ t2) = requests_of t1 ++ requests_of t2.
Proof.
  induction t1 as [|ev t1 IH]; simpl; [reflexivity|].
  destruct ev; simpl; now rewrite ?IH.
Qed.

Lemma requests_of_requests (rs : list request) : requests_of (map Http rs) = rs.
Proof. induction rs as [|r rs IH]; simpl; [reflexivity | now rewrite IH]. Qed.

Lemma prusalink_command_run (self : PrusaLinkPy) :
  (events (PrusaLinkPyClient.cancel_job self) = [StopPrint] /\
   returns (PrusaLinkPyClient.cancel_job self) =
     match stop_print self with
     | Return (Some resp) => negb (error_status (status_code resp))
     | _ => false
     end) /\
  (events (PrusaLinkPyClient.pause_job self) = [PausePrint] /\
   returns (PrusaLinkPyClient.pause_job self) =
     match pause_print self with
     | Return (Some resp) => negb (error_status (status_code resp))
     | _ => false
     end).
Proof.
  assert (H204 : forall sc, (sc =? 204) = true -> error_status sc = false).
  { intros sc Hsc. apply Z.eqb_eq in Hsc. now subst. }
  unfold PrusaLinkPyClient.cancel_job, PrusaLinkPyClient.pause_job, returns,
    send_command, status_code_of, raise_for_status_of, error_status in *.
  unfold_run. split.
  - destruct (stop_print self) as [[resp|]|e]; try (split; reflexivity).
    destruct (status_code resp =? 204) eqn:Hsc.
    + rewrite (H204 _ Hsc). split; reflexivity.
    + destruct (_ && _); split; reflexivity.
  - destruct (pause_print self) as [[resp|]|e]; try (split; reflexivity).
    destruct (status_code resp =? 204) eqn:Hsc.
    + rewrite (H204 _ Hsc). split; reflexivity.
    + destruct (_ && _); split; reflexivity.
Qed.

(** X23: suspending a printing PrusaLink printer, end to end.  After the
    requests of the job-info fetch, [CANCEL_PRINT] makes the stop call of the
    library and [PAUSE_PRINT] the pause call, and nothing follows; the result
    is [True] exactly when that call gave a response with a status outside
    400..599, and [False] when it failed, gave [None], or gave a status in
    400..599. *)
Theorem suspend_print_job_on_prusalink (w : World) (camera_uuid : string)
    (self : PrusaLinkPy) (tj : list request) (ji : JobInfoResponse) :
  construction w camera_uuid (Return (client_of self)) ->
  PrusaLinkPyClient.get_job_info self = (tj, Return ji) ->
  is_printing (state ji) = true ->
  (requests_of (events (suspend_print_job w camera_uuid CANCEL_PRINT))
     = tj ++ [StopPrint] /\
   outcome (suspend_print_job w camera_uuid CANCEL_PRINT) =
     Return match stop_print self with
            | Return (Some resp) => negb (error_status (status_code resp))
            | _ => false
            end) /\
  (requests_of (events (suspend_print_job w camera_uuid PAUSE_PRINT))
     = tj ++ [PausePrint] /\
   outcome (suspend_print_job w camera_uuid PAUSE_PRINT) =
     Return match pause_print self with
            | Return (Some resp) => negb (error_status (status_code resp))
            | _ => false
            end).
Proof.
  intros Hbuilt Hjob Hprinting.
  destruct (prusalink_command_run self) as [[Hstop Hstopped] [Hpause Hpaused]].
  split.
  - rewrite (suspend_print_job_after_setup w camera_uuid CANCEL_PRINT _ Hbuilt).
    rewrite (suspend_attempt_command (client_of self) CANCEL_PRINT tj ji m_cancel_job
               (cancel_job (client_of self)) _ Hjob Hprinting
               (or_introl (conj eq_refl (conj eq_refl (conj eq_refl eq_refl))))).
    cbn [client_of cancel_job]. rewrite Hstop, Hstopped.
    split; [|reflexivity]. unfold events. cbn [fst requests_of].
    rewrite requests_of_app, requests_of_requests. f_equal.
    now destruct (match stop_print self with Return _ => _ | Raise _ => _ end).
  - rewrite (suspend_print_job_after_setup w camera_uuid PAUSE_PRINT _ Hbuilt).
    rewrite (suspend_attempt_command (client_of self) PAUSE_PRINT tj ji m_pause_job
               (pause_job (client_of self)) _ Hjob Hprinting
               (or_intror (conj eq_refl (conj eq_refl (conj eq_refl eq_refl))))).
    cbn [client_of pause_job]. rewrite Hpause, Hpaused.
    split; [|reflexivity]. unfold events. cbn [fst requests_of].
    rewrite requests_of_app, requests_of_requests. f_equal.
    now destruct (match pause_print self with Return _ => _ | Raise _ => _ end).
Qed.

Lemma poll_once_returns (s : Schedule) (interval : Q) (n : nat) :
  outcome (poll_once s interval n) = Return tt.
Proof.
  destruct (poll_once_cycle s interval n) as (t & -> & _). reflexivity.
Qed.

(** X24: no failure of a poll or of a push ends the polling loop, however
    many there are in a row.  If the stop event is never set, then whatever
    exceptions (subclasses of [Exception]) the polls and pushes raise, with
    fuel for [fuel] iterations the loop has run all of them, one poll each,
    and has not ended.  Cancelling the task is not a failure of this kind and
    is not part of the model. *)
Theorem polling_loop_never_gives_up (s : Schedule) (interval : Q) (fuel : nat) :
  (forall i, is_set s i = false) ->
  forall n,
  poll_printer_state_func fuel s interval n = (cycles s interval n fuel, None) /\
  count is_poll (cycles s interval n fuel) = fuel.
Proof.
  intros Hrunning. induction fuel as [|fuel IH]; intros n; simpl.
  - split; reflexivity.
  - rewrite Hrunning.
    destruct (poll_once_cycle s interval n) as (t & Honce & Hpoll & _).
    rewrite Honce. destruct (IH (S n)) as [-> Hcount].
    unfold events. cbn [fst]. split; [reflexivity|].
    rewrite count_app, Hpoll, Hcount. reflexivity.
Qed.

(** X25: the trace of a stopped polling loop is the trace of its cycles, one
    after the other with nothing in between: a cycle starts only when the one
    before has slept. *)
Theorem polling_loop_is_its_cycles (s : Schedule) (interval : Q) (N fuel : nat) :
  (forall i, (i < N)%nat -> is_set s i = false) ->
  is_set s N = true ->
  (N < fuel)%nat ->
  poll_printer_state_func fuel s interval 0
    = (cycles s interval 0 N, Some (Return tt)).
Proof.
  intros Hrun Hstop Hfuel.
  enough (Hfrom : forall k n f,
             (forall i, (n <= i < n + k)%nat -> is_set s i = false) ->
             is_set s (n + k) = true -> (k < f)%nat ->
             poll_printer_state_func f s interval n
               = (cycles s interval n k, Some (Return tt))).
  { apply Hfrom; [intros i Hi; apply Hrun; lia | exact Hstop | exact Hfuel]. }
  induction k as [|k IH]; intros n f Hfalse Htrue Hf;
    (destruct f as [|f]; [lia|]); simpl.
  - rewrite Nat.add_0_r in Htrue. now rewrite Htrue.
  - rewrite (Hfalse n) by lia.
    destruct (poll_once_cycle s interval n) as (t & Honce & _).
    rewrite Honce, (IH (S n) f).
    + reflexivity.
    + intros i Hi. apply Hfalse. lia.
    + now replace (S n + k)%nat with (n + S k)%nat by lia.
    + lia.
Qed.

(** X26: one cycle of the polling loop.  The client is asked for the printer
    state; a state that comes back is pushed, that very state; a warning is
    logged exactly when the poll or the push raised; and the cycle ends with
    one sleep of the configured interval, after a failure as after a success. *)
Theorem polling_cycle_trace (s : Schedule) (interval : Q) (n : nat) :
  events (poll_once s interval n) =
    Invoke m_get_printer_state ::
    map Http (events (get_printer_state (client_at s n))) ++
    match outcome (get_printer_state (client_at s n)) with
    | Return current =>
        SsePush current ::
        match sse_update_printer_state s n current with
        | Return _ => []
        | Raise _ => [Log WARNING "Error polling printer state: %s"]
        end
    | Raise _ => [Log WARNING "Error polling printer state: %s"]
    end ++
    [Sleep interval].
Proof.
  unfold poll_once, call.
  destruct (get_printer_state (client_at s n)) as [tq [ps|e]]; simpl.
  - destruct (sse_update_printer_state s n ps) as [[]|e]; simpl;
      now rewrite <- ?app_assoc.
  - now rewrite <- ?app_assoc.
Qed.

End PrinterUtilsMore.

(** ** The further properties at the sample installations *)

Section MoreSamples.
Import Sample.

Lemma get_job_info_transport_errors_witness :
  PrusaLinkPyClient.get_job_info (models := plain_models) unreachable
    = ([GetStatus], Raise ConnectionError).
Proof.
  apply (proj1 (get_job_info_transport_errors (models := plain_models) unreachable)).
  reflexivity.
Defined.

Lemma get_job_info_without_active_job_witness :
  PrusaLinkPyClient.get_job_info (models := plain_models) jobless
    = ([GetStatus; GetJob], Raise (KeyError "job")) /\
  PrusaLinkPyClient.get_job_info (models := plain_models) idle
    = ([GetStatus; GetJob], Raise JSONDecodeError).
Proof.
  split.
  - apply (proj1 (proj2 (get_job_info_without_active_job (models := plain_models)
                           jobless _ _ _ eq_refl eq_refl eq_refl eq_refl eq_refl)
                    (PyDict []) eq_refl)).
    reflexivity.
  - apply (proj1 (get_job_info_without_active_job (models := plain_models)
                    idle _ _ _ eq_refl eq_refl eq_refl eq_refl eq_refl)).
    reflexivity.
Defined.

Lemma get_printer_temperatures_without_data_witness :
  PrusaLinkPyClient.get_printer_temperatures (models := plain_models) no_temps
    = ([GetPrinter], Return []).
Proof.
  apply (proj1 (get_printer_temperatures_without_data (models := plain_models)
                  no_temps _ _ eq_refl ltac:(discriminate) eq_refl eq_refl)).
  reflexivity.
Defined.

Lemma get_printer_temperatures_readings_sound_witness :
  NoDup ["tool0"; "bed"] /\
  exists d,
    dict_mem "actual" d = true /\
    @TemperatureReading_init plain_models d
      = Return (mkTemperatureReading (PyFloat 60.0) (PyFloat 60.0)).
Proof.
  destruct (get_printer_temperatures_readings_sound (models := plain_models)
              printing [GetPrinter]
              [("tool0", mkTemperatureReading (PyFloat 215.0) (PyFloat 220.0));
               ("bed", mkTemperatureReading (PyFloat 60.0) (PyFloat 60.0))]
              eq_refl) as [Hkeys Horigin].
  split; [exact Hkeys|].
  destruct (Horigin "bed" _ (or_intror (or_introl eq_refl)))
    as (resp & data & temp_data & d & _ & _ & _ & _ & Hact & Hinit).
  now exists d.
Defined.

Lemma get_printer_temperatures_refused_entry_witness :
  exists e,
    PrusaLinkPyClient.get_printer_temperatures (models := strict_models) garbled
      = ([GetPrinter], Raise e).
Proof.
  apply (get_printer_temperatures_refused_entry (models := strict_models)
           garbled _ _ [("bed", PyDict [("actual", PyFloat 60.0)]);
                        ("tool0", PyDict [("actual", PyStr "hot")])]
           "tool0" [("actual", PyStr "hot")] ValidationError
           eq_refl ltac:(discriminate) eq_refl eq_refl eq_refl
           (or_intror (or_introl eq_refl)) eq_refl eq_refl).
Defined.

Lemma nozzle_and_bed_temps_shape_witness :
  keys [("nozzle_actual", PyFloat 215.0); ("nozzle_target", PyFloat 220.0);
        ("bed_actual", PyFloat 60.0); ("bed_target", PyFloat 60.0)]
    = ["nozzle_actual"; "nozzle_target"; "bed_actual"; "bed_target"].
Proof.
  apply (proj2 (proj2 (nozzle_and_bed_temps_shape (models := plain_models) printing))).
  reflexivity.
Defined.

Lemma get_printer_state_busy_printer_witness :
  PrusaLinkPyClient.get_printer_state (models := plain_models) busy =
    ([GetPrinter; GetStatus; GetJob],
     Return (mkPrinterState
               (Some (mkJobInfoResponse
                        (PyDict [("file", PyDict [("name", PyStr "x.gcode")])])
                        (mkProgress (PyFloat 0.42) (PyInt 100) (PyInt 50))
                        (PyStr "PRINTING")))
               (mkPrinterTemperatures PyNone PyNone PyNone PyNone))).
Proof.
  exact (get_printer_state_busy_printer (models := plain_models) busy _ eq_refl eq_refl).
Defined.


Lemma percent_complete_of_job_info_witness :
  outcome (PrusaLinkPyClient.percent_complete
             (models := plain_models) (arith := exact_arith) starting)
    = Return (PyFloat 0) /\
  outcome (PrusaLinkPyClient.percent_complete
             (models := plain_models) (arith := exact_arith) idle)
    = Raise JSONDecodeError.
Proof.
  destruct (percent_complete_of_job_info
              (models := plain_models) (arith := exact_arith) starting)
    as (_ & _ & Hnone & _).
  destruct (percent_complete_of_job_info
              (models := plain_models) (arith := exact_arith) idle)
    as (_ & Hraise & _).
  split.
  - apply (Hnone _ eq_refl). reflexivity.
  - apply Hraise. reflexivity.
Defined.

Lemma current_file_of_job_info_witness :
  outcome (PrusaLinkPyClient.current_file
             (models := plain_models) (files := plain_files) starting)
    = @FileInfo_init plain_files [] /\
  outcome (PrusaLinkPyClient.current_file
             (models := plain_models) (files := plain_files) printing)
    = @FileInfo_init plain_files [("name", PyStr "x.gcode")].
Proof.
  destruct (proj2 (proj2 (current_file_of_job_info
                            (models := plain_models) (files := plain_files) starting))
              _ eq_refl) as [Hobject _].
  destruct (proj2 (proj2 (current_file_of_job_info
                            (models := plain_models) (files := plain_files) printing))
              _ eq_refl) as [Hobject' _].
  split.
  - apply (proj1 (Hobject _ eq_refl)). reflexivity.
  - apply (proj1 (proj2 (Hobject' _ eq_refl))). reflexivity.
Defined.

Lemma printer_lookups_none_or_truthy_witness :
  printer_config [("printer_type", PyStr "prusalinkpy")] = PyNone \/
  truthy (printer_config [("printer_type", PyStr "prusalinkpy")]) = true.
Proof.
  apply (proj1 (proj2 (proj2 (proj2 (proj2
           (printer_lookups_none_or_truthy (world printing octoprint) "cam-prusa")))))).
  reflexivity.
Defined.

Lemma set_printer_read_back_witness :
  PrinterUtils.get_printer_config
      (with_store (world printing octoprint)
         (fst (PrinterUtils.set_printer store "cam-1" (PyStr "printer-9")
                 (printer_config [("printer_type", PyStr "prusalinkpy")]))))
      "cam-1"
    = ([], Return (printer_config [("printer_type", PyStr "prusalinkpy")])) /\
  PrinterUtils.get_printer_config
      (with_store (world printing octoprint)
         (fst (PrinterUtils.set_printer store "cam-1" (PyStr "printer-9") (PyDict []))))
      "cam-1"
    = ([], Return PyNone).
Proof.
  split.
  - apply (proj1 (set_printer_read_back (world printing octoprint) store "cam-1"
                    _ (PyStr "printer-9")
                    (printer_config [("printer_type", PyStr "prusalinkpy")]) eq_refl)).
  - apply (proj1 (set_printer_read_back (world printing octoprint) store "cam-1"
                    _ (PyStr "printer-9") (PyDict []) eq_refl)).
Defined.

Lemma remove_printer_clears_witness :
  PrinterUtils.suspend_print_job (models := plain_models)
      (with_store (world printing octoprint)
         (fst (PrinterUtils.remove_printer
                 (fst (PrinterUtils.set_printer store "cam-1" (PyStr "printer-9")
                         (printer_config [("printer_type", PyStr "prusalinkpy")])))
                 "cam-1")))
      "cam-1" CANCEL_PRINT
    = ([Log ERROR "No printer configuration found for camera UUID %s"], Return false).
Proof.
  apply (proj2 (proj2 (proj2
           (remove_printer_clears (models := plain_models) (world printing octoprint)
              (fst (PrinterUtils.set_printer store "cam-1" (PyStr "printer-9")
                      (printer_config [("printer_type", PyStr "prusalinkpy")])))
              "cam-1" _ CANCEL_PRINT eq_refl)))).
Defined.

Lemma start_polling_creates_registered_task_witness :
  PrinterUtils.start_printer_state_polling (models := plain_models)
      (world printing octoprint) "cam-prusa"
    = ([CreateTask (inject_Z 2000 / 1000);
        AddPollingTask "cam-prusa";
        Log DEBUG "Started printer state polling for camera index %d using {client_class.__name__}"],
       Return tt) /\
  PrinterUtils.start_printer_state_polling (models := plain_models)
      registry_down "cam-prusa"
    = ([CreateTask (inject_Z 2000 / 1000); AddPollingTask "cam-prusa"],
       Raise (OtherException "registry")).
Proof.
  split.
  - apply (proj1 (start_polling_creates_registered_task (models := plain_models)
                    (world printing octoprint) "cam-prusa" [] 2000 _
                    (prusa_camera_construction printing octoprint) eq_refl eq_refl)).
    reflexivity.
  - refine (proj1 (start_polling_creates_registered_task (models := plain_models)
                     registry_down "cam-prusa" [] 2000
                     (Return (client_of (H := plain_models) printing)) _ eq_refl eq_refl) _).
    + exists (printer_config [("printer_type", PyStr "prusalinkpy")]),
             PRUSALINKPY, PrusaLinkPyClient.
      repeat (split; [reflexivity|]).
      exists (PyStr "192.168.1.20"), (PyStr "secret").
      repeat split.
    + reflexivity.
Defined.

Lemma start_polling_rate_errors_witness :
  PrinterUtils.start_printer_state_polling (models := plain_models)
      misconfigured "cam-klipper"
    = ([], Raise TypeError).
Proof.
  apply (proj2 (start_polling_rate_errors (models := plain_models)
                  misconfigured "cam-klipper"
                  (printer_config [("printer_type", PyStr "klipper")])
                  eq_refl eq_refl)
           [("printer_stat_polling_rate_ms", PyStr "fast")] (PyStr "fast")
           eq_refl eq_refl);
    discriminate.
Defined.

Lemma suspend_print_job_fetch_failure_witness :
  PrinterUtils.suspend_print_job (models := plain_models)
      (world jobless octoprint) "cam-prusa" PAUSE_PRINT
    = ([Invoke m_get_job_info; Http GetStatus; Http GetJob;
        Log ERROR "Error suspending print job for printer on camera %s: %s"],
       Return false).
Proof.
  exact (proj1 (suspend_print_job_fetch_failure (models := plain_models)
                  (world jobless octoprint) "cam-prusa" PAUSE_PRINT _
                  [GetStatus; GetJob] (KeyError "job")
                  (prusa_camera_construction jobless octoprint) eq_refl)).
Defined.

Lemma suspend_print_job_on_prusalink_witness :
  requests_of (events (PrinterUtils.suspend_print_job (models := plain_models)
                         (world locked octoprint) "cam-prusa" CANCEL_PRINT))
    = [GetStatus; GetJob; StopPrint] /\
  outcome (PrinterUtils.suspend_print_job (models := plain_models)
             (world locked octoprint) "cam-prusa" CANCEL_PRINT)
    = Return false /\
  outcome (PrinterUtils.suspend_print_job (models := plain_models)
             (world locked octoprint) "cam-prusa" PAUSE_PRINT)
    = Return true /\
  outcome (PrinterUtils.suspend_print_job (models := plain_models)
             (world no_handle octoprint) "cam-prusa" PAUSE_PRINT)
    = Return false.
Proof.
  destruct (suspend_print_job_on_prusalink (models := plain_models)
              (world locked octoprint) "cam-prusa" locked [GetStatus; GetJob] _
              (prusa_camera_construction locked octoprint) eq_refl eq_refl)
    as [[Hrequests Hcancel] [_ Hpause]].
  destruct (suspend_print_job_on_prusalink (models := plain_models)
              (world no_handle octoprint) "cam-prusa" no_handle [GetStatus; GetJob] _
              (prusa_camera_construction no_handle octoprint) eq_refl eq_refl)
    as [_ [_ Hnone]].
  split; [exact Hrequests|]. split; [exact Hcancel|]. split; [exact Hpause | exact Hnone].
Defined.

Lemma polling_loop_never_gives_up_witness :
  PrinterUtils.poll_printer_state_func 4 forever 2 0 = (cycles forever 2 0 4, None) /\
  count is_poll (cycles forever 2 0 4) = 4%nat.
Proof.
  apply (polling_loop_never_gives_up forever 2 4). reflexivity.
Defined.

Lemma polling_loop_is_its_cycles_witness :
  PrinterUtils.poll_printer_state_func 7 deaf_sink 2 0
    = (cycles deaf_sink 2 0 2, Some (Return tt)).
Proof.
  apply (polling_loop_is_its_cycles deaf_sink 2 2 7).
  - intros i Hi. destruct i as [|[|i]]; try reflexivity. lia.
  - reflexivity.
  - lia.
Defined.

End MoreSamples.
